(** * ManHUB server: routes, local authentication, object ACL and quote workflow

    A shallow embedding of [server/routes.ts] and [server/localAuth.ts].
    The route handlers are transcribed over the two service interfaces
    they call ([storage] and [ObjectStorageService]) and the request
    schemas; the relational store, the object store and the access
    policy check, whose sources are not part of the development, are
    given a reference implementation further down. *)

From Stdlib Require Import ZArith Lia Ascii.
From stdpp Require Import base option strings list gmap pretty.

Set Warnings "-register-all,-clear-no-such-hyp".
Local Open Scope string_scope.
Local Open Scope list_scope.
Local Open Scope Z_scope.

(** ** JavaScript values *)

(** The handlers take [req: any]; values that flow through them untyped
    are kept as JavaScript values.  Numbers are restricted to integers. *)
Inductive JsVal : Type :=
| JUndefined
| JNull
| JBool (b : bool)
| JNum (n : Z)
| JStr (s : string)
| JArr (items : list JsVal)
| JObj (fields : list (string * JsVal)).

(** [!!v] *)
Definition truthy (v : JsVal) : bool :=
  match v with
  | JUndefined | JNull => false
  | JBool b => b
  | JNum n => negb (n =? 0)
  | JStr s => negb (String.eqb s "")
  | JArr _ | JObj _ => true
  end.

(** [a === b].  Arrays and objects compare by reference; two values that
    were built separately are never identical. *)
Definition strict_eqb (a b : JsVal) : bool :=
  match a, b with
  | JUndefined, JUndefined => true
  | JNull, JNull => true
  | JBool x, JBool y => Bool.eqb x y
  | JNum x, JNum y => x =? y
  | JStr x, JStr y => String.eqb x y
  | _, _ => false
  end.

(** [a || b] *)
Definition js_or (a b : JsVal) : JsVal := if truthy a then a else b.

Fixpoint assoc (k : string) (fields : list (string * JsVal)) : JsVal :=
  match fields with
  | [] => JUndefined
  | (k', v) :: rest => if String.eqb k k' then v else assoc k rest
  end.

Definition keys (fields : list (string * JsVal)) : list string := fields.*1.

(** [o?.k]: undefined when [o] is null or undefined. *)
Definition opt_prop (o : JsVal) (k : string) : JsVal :=
  match o with
  | JObj fields => assoc k fields
  | _ => JUndefined
  end.

Fixpoint remove_key (k : string) (fields : list (string * JsVal)) : list (string * JsVal) :=
  match fields with
  | [] => []
  | (k', v) :: rest =>
      if String.eqb k k' then remove_key k rest else (k', v) :: remove_key k rest
  end.

(** [{ ...o, k: v }] *)
Definition spread_with (o : JsVal) (k : string) (v : JsVal) : JsVal :=
  match o with
  | JObj fields => JObj (remove_key k fields ++ [(k, v)])
  | _ => JObj [(k, v)]
  end.

(** [const { k, ...rest } = o]: the [rest] part. *)
Definition rest_without (o : JsVal) (k : string) : JsVal :=
  match o with
  | JObj fields => JObj (remove_key k fields)
  | _ => JObj []
  end.

(** ** Exceptions and awaited calls *)

Inductive Exn : Type :=
| ZodError (errors : JsVal)
| ObjectNotFoundError
| TypeError
| Error (message : string).

Inductive Outcome (A : Type) : Type :=
| Ok (a : A)
| Throw (e : Exn).
Arguments Ok {A} a.
Arguments Throw {A} e.

(** [o.k]: reading a property of null or undefined throws. *)
Definition prop (o : JsVal) (k : string) : Outcome JsVal :=
  match o with
  | JUndefined | JNull => Throw TypeError
  | JObj fields => Ok (assoc k fields)
  | _ => Ok JUndefined
  end.

(** [error instanceof ObjectNotFoundError] *)
Definition instanceof_ObjectNotFoundError (e : Exn) : bool :=
  match e with ObjectNotFoundError => true | _ => false end.

(** ** Responses *)

Inductive Body : Type :=
| json (v : JsVal)
| text (s : string)
| stream (content : list Byte.byte) (cacheTtlSec : JsVal) (fileName : JsVal).

Record Response : Type := mkResponse { status : Z; body : Body }.

(** [res.status(code).json(v)] and [res.json(v)] *)
Definition res_status_json (code : Z) (v : JsVal) : Response := mkResponse code (json v).
Definition res_json (v : JsVal) : Response := mkResponse 200 (json v).

(** [res.sendStatus(code)]: the status with its standard text as body. *)
Definition status_text (code : Z) : string :=
  if code =? 401 then "Unauthorized"
  else if code =? 404 then "Not Found"
  else if code =? 500 then "Internal Server Error"
  else pretty code.
Definition res_sendStatus (code : Z) : Response := mkResponse code (text (status_text code)).

(** ** Requests *)

Record Request : Type := mkRequest {
  req_user : JsVal;          (* req.user, set by passport.deserializeUser *)
  req_body : JsVal;          (* req.body *)
  req_params_id : JsVal;     (* req.params.id *)
  req_params_filePath : JsVal;  (* req.params.filePath *)
  req_path : JsVal;          (* req.path *)
  req_query : JsVal          (* req.query *)
}.

(** ** Computations over the world behind the services

    An awaited service call either returns or throws, and may change
    the world [W] (the relational store, the object store and the
    session store). *)
Section Computations.
Context {W : Type}.

Definition M (A : Type) : Type := W → Outcome A * W.

Definition ret {A} (a : A) : M A := λ w, (Ok a, w).
Definition throw {A} (e : Exn) : M A := λ w, (Throw e, w).
Definition bind {A B} (m : M A) (k : A → M B) : M B :=
  λ w, match m w with
       | (Ok a, w') => k a w'
       | (Throw e, w') => (Throw e, w')
       end.
(** a call that only reads *)
Definition query {A} (f : W → Outcome A) : M A := λ w, (f w, w).
(** a computation that does not touch the world *)
Definition pure {A} (o : Outcome A) : M A := λ w, (o, w).

(** [try { body } catch (error) { handler }] around a handler body
    that ends by sending a response. *)
Definition try_catch (body : M Response) (handler : Exn → Response) : W → Response * W :=
  λ w, match body w with
       | (Ok r, w') => (r, w')
       | (Throw e, w') => (handler e, w')
       end.
End Computations.
Arguments M : clear implicits.

Notation "'let*' x ':=' m 'in' k" := (bind m (λ x, k))
  (at level 10, x name, m at level 100, k at level 200, only parsing).

(** ** The services behind the routes *)

(** [storage] (server/storage.ts).  Rows are returned as objects; a
    missing row is [undefined]. *)
Record IStorage (W : Type) : Type := {
  getUser : JsVal → W → Outcome JsVal;
  getUserById : JsVal → W → Outcome JsVal;
  getUserByEmail : JsVal → W → Outcome JsVal;
  createUser : JsVal → M W JsVal;
  createQuote : JsVal → M W JsVal;
  createQuoteFile : JsVal → M W JsVal;
  getQuote : JsVal → W → Outcome JsVal;
  updateQuoteStatus : JsVal → JsVal → JsVal → M W JsVal;
  updateQuotePrice : JsVal → JsVal → M W JsVal
}.
Arguments getUser {W}.
Arguments getUserById {W}.
Arguments getUserByEmail {W}.
Arguments createUser {W}.
Arguments createQuote {W}.
Arguments createQuoteFile {W}.
Arguments getQuote {W}.
Arguments updateQuoteStatus {W}.
Arguments updateQuotePrice {W}.

(** [ObjectStorageService] (server/objectStorage.ts).  [File] is the
    handle of a stored object.  [canAccessObjectEntity] takes
    [{ objectFile, userId, requestedPermission }]; [downloadObject]
    writes the response. *)
Record ObjectStorageService (W File : Type) : Type := {
  getObjectEntityFile : JsVal → W → Outcome File;
  canAccessObjectEntity : File → JsVal → JsVal → W → Outcome bool;
  downloadObject : File → JsVal → JsVal → W → Response;
  searchPublicObject : JsVal → W → Outcome (option File);
  trySetObjectEntityAclPolicy : JsVal → JsVal → M W JsVal
}.
Arguments getObjectEntityFile {W File}.
Arguments canAccessObjectEntity {W File}.
Arguments downloadObject {W File}.
Arguments searchPublicObject {W File}.
Arguments trySetObjectEntityAclPolicy {W File}.

(** The request schemas of shared/schema.ts: [schema.parse(body)]. *)
Record Schemas : Type := {
  insertUserSchema : JsVal → Outcome JsVal;
  loginUserSchema : JsVal → Outcome JsVal;
  insertQuoteSchema : JsVal → Outcome JsVal;
  updateQuoteStatusSchema : JsVal → Outcome JsVal;
  updateQuotePriceSchema : JsVal → Outcome JsVal
}.

(** bcrypt and the session store that [req.login] writes the
    serialized user to. *)
Record AuthBackend (W : Type) : Type := {
  bcrypt_hash : JsVal → Z → Outcome JsVal;
  bcrypt_compare : JsVal → JsVal → Outcome bool;
  session_save : JsVal → M W ()
}.
Arguments bcrypt_hash {W}.
Arguments bcrypt_compare {W}.
Arguments session_save {W}.

(** ** server/localAuth.ts *)

Definition SALT_ROUNDS : Z := 10.

(** The object literal [userWithoutPassword], written out with the same
    eight properties in the register and auth/user handlers, in the
    LocalStrategy verify function and in [passport.deserializeUser].
    [user] is an object at each of the four places. *)
Definition userWithoutPassword (user : JsVal) : JsVal :=
  JObj [ ("id", opt_prop user "id");
         ("email", opt_prop user "email");
         ("firstName", opt_prop user "firstName");
         ("lastName", opt_prop user "lastName");
         ("profileImageUrl", opt_prop user "profileImageUrl");
         ("isAdmin", opt_prop user "isAdmin");
         ("createdAt", opt_prop user "createdAt");
         ("updatedAt", opt_prop user "updatedAt") ].

(** What a passport callback [done(err, user, info)] was called with. *)
Inductive Done : Type :=
| done_error (err : Exn)
| done_false (info : JsVal)
| done_user (user : JsVal).

Section Routes.
Context {W File : Type}.
Context (storage : IStorage W).
Context (objectStorageService : ObjectStorageService W File).
Context (schemas : Schemas).
Context (auth : AuthBackend W).

Definition hashPassword (password : JsVal) : Outcome JsVal :=
  bcrypt_hash auth password SALT_ROUNDS.

Definition verifyPassword (password hash : JsVal) : Outcome bool :=
  bcrypt_compare auth password hash.

Definition invalid_email_or_password : JsVal :=
  JObj [("message", JStr "Invalid email or password")].

(** The verify function given to [LocalStrategy]. *)
Definition verify (email password : JsVal) (w : W) : Done :=
  match getUserByEmail storage email w with
  | Throw error => done_error error
  | Ok user =>
      if negb (truthy user) then done_false invalid_email_or_password
      else if negb (truthy (opt_prop user "password")) then
        done_false invalid_email_or_password
      else
        match verifyPassword password (opt_prop user "password") with
        | Throw error => done_error error
        | Ok isValidPassword =>
            if negb isValidPassword then done_false invalid_email_or_password
            else done_user (userWithoutPassword user)
        end
  end.

(** [passport.serializeUser]: only the id goes into the session. *)
Definition serializeUser (user : JsVal) : Outcome JsVal := prop user "id".

Definition deserializeUser (id : JsVal) (w : W) : Done :=
  match getUserById storage id w with
  | Throw error => done_error error
  | Ok user =>
      if negb (truthy user) then done_false JUndefined
      else done_user (userWithoutPassword user)
  end.

(** [req.login(user, callback)]: serialize the user and save the
    result in the session; a failure of either is the callback's
    [err]. *)
Definition req_login (user : JsVal) : M W () :=
  let* id := pure (serializeUser user) in
  session_save auth id.

(** passport-local, with [usernameField: "email"] and
    [passwordField: "password"]: the credentials are looked up in the
    body, then in the query; without both the strategy fails with
    "Missing credentials" before [verify] is called. *)
Definition local_strategy (req : Request) (w : W) : Done :=
  let email := js_or (opt_prop (req_body req) "email") (opt_prop (req_query req) "email") in
  let password :=
    js_or (opt_prop (req_body req) "password") (opt_prop (req_query req) "password") in
  if negb (truthy email) || negb (truthy password) then
    done_false (JObj [("message", JStr "Missing credentials")])
  else
    match verify email password w with
    | done_user user =>
        if negb (truthy user) then done_false JUndefined else done_user user
    | d => d
    end.

Definition isAuthenticated (req : Request) (next : W → Response * W) : W → Response * W :=
  λ w, if truthy (req_user req) then next w
       else (res_status_json 401 (JObj [("message", JStr "Unauthorized")]), w).

(** *** server/routes.ts *)

(** The [catch] blocks. *)
Definition catch_message (failure : string) (error : Exn) : Response :=
  match error with
  | ZodError errors =>
      res_status_json 400 (JObj [("message", JStr "Validation error"); ("errors", errors)])
  | _ => res_status_json 500 (JObj [("message", JStr failure)])
  end.

Definition catch_error (error : Exn) : Response :=
  match error with
  | ZodError errors =>
      res_status_json 400 (JObj [("error", JStr "Validation error"); ("details", errors)])
  | _ => res_status_json 500 (JObj [("error", JStr "Internal server error")])
  end.

(** POST /api/register *)
Definition post_api_register (req : Request) : W → Response * W :=
  try_catch
    (let* validatedData := pure (insertUserSchema schemas (req_body req)) in
     let* existingUser := query (getUserByEmail storage (opt_prop validatedData "email")) in
     if truthy existingUser then
       ret (res_status_json 400 (JObj [("message", JStr "Email already registered")]))
     else
       let* hashedPassword := pure (hashPassword (opt_prop validatedData "password")) in
       let* user :=
         createUser storage
           (JObj [ ("email", opt_prop validatedData "email");
                   ("password", hashedPassword);
                   ("firstName", opt_prop validatedData "firstName");
                   ("lastName", opt_prop validatedData "lastName");
                   ("profileImageUrl", opt_prop validatedData "profileImageUrl") ]) in
       λ w, match req_login user w with
            | (Throw err, w') =>
                (Ok (res_status_json 500
                       (JObj [("message", JStr "Registration successful but login failed")])), w')
            | (Ok _, w') => (Ok (res_json (userWithoutPassword user)), w')
            end)
    (catch_message "Failed to register user").

(** POST /api/login *)
Definition post_api_login (req : Request) : W → Response * W :=
  λ w,
    match loginUserSchema schemas (req_body req) with
    | Throw (ZodError errors) =>
        (res_status_json 400 (JObj [("message", JStr "Validation error"); ("errors", errors)]), w)
    | _ =>
        match local_strategy req w with
        | done_error err =>
            (res_status_json 500 (JObj [("message", JStr "Authentication failed")]), w)
        | done_false info =>
            (res_status_json 401
               (JObj [("message", js_or (opt_prop info "message") (JStr "Invalid credentials"))]), w)
        | done_user user =>
            match req_login user w with
            | (Throw err, w') =>
                (res_status_json 500 (JObj [("message", JStr "Login failed")]), w')
            | (Ok _, w') => (res_json user, w')
            end
        end
    end.

(** GET /api/auth/user *)
Definition get_api_auth_user (req : Request) : W → Response * W :=
  isAuthenticated req
    (try_catch
       (let* userId := pure (prop (req_user req) "id") in
        let* user := query (getUser storage userId) in
        if negb (truthy user) then
          ret (res_status_json 404 (JObj [("message", JStr "User not found")]))
        else ret (res_json (userWithoutPassword user)))
       (λ error, res_status_json 500 (JObj [("message", JStr "Failed to fetch user")]))).

(** GET /objects/:objectPath *)
Definition get_objects (req : Request) : W → Response * W :=
  isAuthenticated req
    (let userId := opt_prop (req_user req) "id" in
     let fileName := opt_prop (req_query req) "filename" in
     try_catch
       (let* objectFile := query (getObjectEntityFile objectStorageService (req_path req)) in
        let* canAccess :=
          query (canAccessObjectEntity objectStorageService objectFile userId JUndefined) in
        if negb canAccess then ret (res_sendStatus 401)
        else λ w, (Ok (downloadObject objectStorageService objectFile (JNum 3600) fileName w), w))
       (λ error,
          if instanceof_ObjectNotFoundError error then res_sendStatus 404
          else res_sendStatus 500)).

(** GET /public-objects/:filePath *)
Definition get_public_objects (req : Request) : W → Response * W :=
  let filePath := req_params_filePath req in
  try_catch
    (let* file := query (searchPublicObject objectStorageService filePath) in
     match file with
     | None => ret (res_status_json 404 (JObj [("error", JStr "File not found")]))
     | Some file =>
         λ w, (Ok (downloadObject objectStorageService file JUndefined JUndefined w), w)
     end)
    (λ error, res_status_json 500 (JObj [("error", JStr "Internal server error")])).

(** [name.split('.').pop()]: what follows the last dot, or the whole
    name when it has none. *)
Fixpoint split_pop (s : string) (segment : string) : string :=
  match s with
  | EmptyString => segment
  | String c rest =>
      if Ascii.eqb c "."%char then split_pop rest ""
      else split_pop rest (segment +:+ String c "")
  end.

Definition js_split_pop (v : JsVal) : Outcome JsVal :=
  match v with
  | JStr s => Ok (JStr (split_pop s ""))
  | _ => Throw TypeError
  end.

(** [filesSchema], declared in the POST /api/quotes handler. *)
Definition file_parse (v : JsVal) : option JsVal :=
  match opt_prop v "uploadURL", opt_prop v "name", opt_prop v "size" with
  | JStr uploadURL, JStr name, JUndefined =>
      Some (JObj [("uploadURL", JStr uploadURL); ("name", JStr name)])
  | JStr uploadURL, JStr name, JNum size =>
      Some (JObj [("uploadURL", JStr uploadURL); ("name", JStr name); ("size", JNum size)])
  | _, _, _ => None
  end.

Definition filesSchema (body : JsVal) : Outcome JsVal :=
  match opt_prop body "files" with
  | JArr items =>
      match mapM file_parse items with
      | Some files =>
          if (1 <=? length files)%nat then Ok (JObj [("files", JArr files)])
          else Throw (ZodError (JArr [JStr "At least one file is required"]))
      | None => Throw (ZodError (JArr [JStr "Invalid input"]))
      end
  | _ => Throw (ZodError (JArr [JStr "Invalid input"]))
  end.

(** [insertQuoteSchema.merge(filesSchema)]: the body has to pass both;
    the issues of both are reported together. *)
Definition combinedSchema (body : JsVal) : Outcome JsVal :=
  match insertQuoteSchema schemas body, filesSchema body with
  | Ok quoteData, Ok files => Ok (spread_with quoteData "files" (opt_prop files "files"))
  | Throw (ZodError (JArr e1)), Throw (ZodError (JArr e2)) => Throw (ZodError (JArr (e1 ++ e2)))
  | Throw e, _ => Throw e
  | _, Throw e => Throw e
  end.

(** [Promise.all(tasks)]: every task runs; the result is the list of
    their values, or the rejection of the first one that failed.  The
    tasks are run one after the other in the order of the list. *)
Fixpoint promise_all {A} (tasks : list (M W A)) : M W (list A) :=
  λ w, match tasks with
       | [] => (Ok [], w)
       | task :: rest =>
           match task w with
           | (r, w1) =>
               match promise_all rest w1 with
               | (rs, w2) =>
                   (match r, rs with
                    | Ok a, Ok l => Ok (a :: l)
                    | Throw e, _ => Throw e
                    | Ok _, Throw e => Throw e
                    end, w2)
               end
           end
       end.

(** [files.map(...)] *)
Definition js_map {A} (f : JsVal → A) (v : JsVal) : Outcome (list A) :=
  match v with
  | JArr items => Ok (map f items)
  | _ => Throw TypeError
  end.

(** The async function mapped over [files] in POST /api/quotes. *)
Definition quote_file_task (userId quote file : JsVal) : M W JsVal :=
  let* uploadURL := pure (prop file "uploadURL") in
  let* normalizedPath :=
    trySetObjectEntityAclPolicy objectStorageService uploadURL
      (JObj [("owner", userId); ("visibility", JStr "private")]) in
  let* quoteId := pure (prop quote "id") in
  let* name := pure (prop file "name") in
  let* extension := pure (js_split_pop name) in
  let* size := pure (prop file "size") in
  createQuoteFile storage
    (JObj [ ("quoteId", quoteId);
            ("fileName", name);
            ("filePath", normalizedPath);
            ("fileType", js_or extension (JStr ""));
            ("fileSize", js_or size (JNum 0)) ]).

(** POST /api/quotes *)
Definition post_api_quotes (req : Request) : W → Response * W :=
  isAuthenticated req
    (try_catch
       (let* userId := pure (prop (req_user req) "id") in
        let* validatedData := pure (combinedSchema (req_body req)) in
        let files := opt_prop validatedData "files" in
        let quoteData := rest_without validatedData "files" in
        let* quote := createQuote storage (spread_with quoteData "userId" userId) in
        let* tasks := pure (js_map (quote_file_task userId quote) files) in
        let* fileRecords := promise_all tasks in
        let* quoteId := pure (prop quote "id") in
        let* quoteWithFiles := query (getQuote storage quoteId) in
        ret (res_json quoteWithFiles))
       catch_error).

(** GET /api/quotes/:id *)
Definition get_api_quotes_id (req : Request) : W → Response * W :=
  isAuthenticated req
    (try_catch
       (let* userId := pure (prop (req_user req) "id") in
        let* quote := query (getQuote storage (req_params_id req)) in
        if negb (truthy quote) then
          ret (res_status_json 404 (JObj [("error", JStr "Quote not found")]))
        else
          let* user := query (getUser storage userId) in
          if negb (strict_eqb (opt_prop quote "userId") userId)
             && negb (strict_eqb (opt_prop user "isAdmin") (JNum 1)) then
            ret (res_status_json 403 (JObj [("error", JStr "Forbidden")]))
          else ret (res_json quote))
       (λ error, res_status_json 500 (JObj [("error", JStr "Internal server error")]))).

Definition forbidden_admin_required : Response :=
  res_status_json 403 (JObj [("error", JStr "Forbidden - Admin access required")]).

(** PUT /api/admin/quotes/:id/status *)
Definition put_api_admin_quotes_id_status (req : Request) : W → Response * W :=
  isAuthenticated req
    (try_catch
       (let* userId := pure (prop (req_user req) "id") in
        let* user := query (getUser storage userId) in
        if negb (strict_eqb (opt_prop user "isAdmin") (JNum 1)) then
          ret forbidden_admin_required
        else
          let* validatedData := pure (updateQuoteStatusSchema schemas (req_body req)) in
          let* quote :=
            updateQuoteStatus storage (req_params_id req)
              (opt_prop validatedData "status") (opt_prop validatedData "notes") in
          ret (res_json quote))
       catch_error).

(** PUT /api/admin/quotes/:id/price *)
Definition put_api_admin_quotes_id_price (req : Request) : W → Response * W :=
  isAuthenticated req
    (try_catch
       (let* userId := pure (prop (req_user req) "id") in
        let* user := query (getUser storage userId) in
        if negb (strict_eqb (opt_prop user "isAdmin") (JNum 1)) then
          ret forbidden_admin_required
        else
          let* validatedData := pure (updateQuotePriceSchema schemas (req_body req)) in
          let* quote :=
            updateQuotePrice storage (req_params_id req)
              (opt_prop validatedData "finalPrice") in
          ret (res_json quote))
       catch_error).
End Routes.

(** ** The quote workflow *)

(** The seven stages, in their fixed order (the Order Status Workflow
    of the project description). *)
Inductive QuoteStatus : Type :=
| REQUESTED | PROVIDED | CONFIRMED | IN_PRODUCTION | QUALITY_CHECK | SHIPPED | DELIVERED.

Definition index (s : QuoteStatus) : Z :=
  match s with
  | REQUESTED => 1 | PROVIDED => 2 | CONFIRMED => 3 | IN_PRODUCTION => 4
  | QUALITY_CHECK => 5 | SHIPPED => 6 | DELIVERED => 7
  end.

Definition status_name (s : QuoteStatus) : string :=
  match s with
  | REQUESTED => "quote_requested"
  | PROVIDED => "quote_provided"
  | CONFIRMED => "order_confirmed"
  | IN_PRODUCTION => "in_production"
  | QUALITY_CHECK => "quality_check"
  | SHIPPED => "shipped"
  | DELIVERED => "delivered"
  end.

Definition all_statuses : list QuoteStatus :=
  [REQUESTED; PROVIDED; CONFIRMED; IN_PRODUCTION; QUALITY_CHECK; SHIPPED; DELIVERED].

Definition status_of_name (name : string) : option QuoteStatus :=
  find (λ s, String.eqb (status_name s) name) all_statuses.

(** Modelled from the spec: the schema of the history table
    (shared/schema.ts) is not among the sources.  An entry carries the
    status, the notes and its time; the call in routes.ts hands the
    store the status and the notes only, so no actor is recorded. *)
Record QuoteStatusHistoryEntry : Type := mkEntry {
  h_status : QuoteStatus;
  h_notes : JsVal;
  h_createdAt : Z
}.

(** Modelled from the spec: the schema of the quotes table
    (shared/schema.ts) is not among the sources.  A quote with the rows
    it owns: its files and its status history, oldest entry first. *)
Record Quote : Type := mkQuote {
  q_id : string;
  q_userId : JsVal;
  q_status : QuoteStatus;
  q_finalPrice : JsVal;
  q_details : list (string * JsVal);
  q_files : list JsVal;
  q_statusHistory : list QuoteStatusHistoryEntry
}.

(** ** Object access policies *)

(** Modelled from the spec: the types of objectAcl.ts are not among the
    sources.  A policy has an owner, a visibility and an ordered
    sequence of rules [{groupType, groupId, permission}]. *)
Inductive ObjectPermission : Type := READ | WRITE.

Inductive Visibility : Type := PUBLIC | PRIVATE.

Record Rule : Type := mkRule {
  groupType : string;
  groupId : string;
  permission : ObjectPermission
}.

Record ObjectPolicy : Type := mkPolicy {
  ownerId : string;
  visibility : Visibility;
  rules : list Rule
}.

(** Modelled from the spec: the blob backend keeps, under a key, the
    bytes of an object and a small metadata record alongside. *)
Record StoredObject : Type := mkObject {
  content : list Byte.byte;
  metadata : option JsVal
}.

(** ** The world of the reference implementation *)

(** Modelled from the spec: the relational store (users, and quotes
    with their files and history), the blob backend with the search
    paths of its public objects, the session store and a clock. *)
Record World : Type := mkWorld {
  users : list JsVal;
  quotes : gmap string Quote;
  objects : gmap string StoredObject;
  public_search_paths : list string;
  sessions : list JsVal;
  clock : Z
}.

Definition set_users (f : list JsVal → list JsVal) (w : World) : World :=
  mkWorld (f (users w)) (quotes w) (objects w) (public_search_paths w) (sessions w) (clock w + 1).
Definition set_quotes (f : gmap string Quote → gmap string Quote) (w : World) : World :=
  mkWorld (users w) (f (quotes w)) (objects w) (public_search_paths w) (sessions w) (clock w + 1).
Definition set_objects (f : gmap string StoredObject → gmap string StoredObject) (w : World) : World :=
  mkWorld (users w) (quotes w) (f (objects w)) (public_search_paths w) (sessions w) (clock w).
Definition set_sessions (f : list JsVal → list JsVal) (w : World) : World :=
  mkWorld (users w) (quotes w) (objects w) (public_search_paths w) (f (sessions w)) (clock w).

(** The reference implementation of the services.  The sources of
    server/storage.ts, server/objectStorage.ts, server/objectAcl.ts and
    shared/schema.ts are not part of the development; each operation
    below is modelled from the specification. *)
Module Reference.

(** *** AccessPolicyCodec *)

Definition visibility_name (v : Visibility) : string :=
  match v with PUBLIC => "public" | PRIVATE => "private" end.

Definition permission_name (p : ObjectPermission) : string :=
  match p with READ => "read" | WRITE => "write" end.

Definition rule_row (r : Rule) : JsVal :=
  JObj [ ("groupType", JStr (groupType r));
         ("groupId", JStr (groupId r));
         ("permission", JStr (permission_name (permission r))) ].

(** Modelled from the spec: the codec of objectAcl.ts is not among the
    sources.  [encode] serializes [ownerId], [visibility] and [rules]
    into the persisted metadata record
    [{ownerId, visibility: "public"|"private", rules: [...]}]. *)
Definition encode (policy : ObjectPolicy) : JsVal :=
  JObj [ ("ownerId", JStr (ownerId policy));
         ("visibility", JStr (visibility_name (visibility policy)));
         ("rules", JArr (rule_row <$> rules policy)) ].

Definition decode_visibility (v : JsVal) : option Visibility :=
  match v with
  | JStr s =>
      if String.eqb s "public" then Some PUBLIC
      else if String.eqb s "private" then Some PRIVATE
      else None
  | _ => None
  end.

Definition decode_permission (v : JsVal) : option ObjectPermission :=
  match v with
  | JStr s =>
      if String.eqb s "read" then Some READ
      else if String.eqb s "write" then Some WRITE
      else None
  | _ => None
  end.

Definition decode_rule (v : JsVal) : option Rule :=
  match opt_prop v "groupType", opt_prop v "groupId", decode_permission (opt_prop v "permission") with
  | JStr type, JStr id, Some p => Some (mkRule type id p)
  | _, _, _ => None
  end.

Definition decode_rules (v : JsVal) : option (list Rule) :=
  match v with
  | JUndefined => Some []
  | JArr items => mapM decode_rule items
  | _ => None
  end.

(** Modelled from the spec: [decode] fails ([None], MalformedPolicy)
    when [ownerId] or [visibility] is absent or unparsable; extra
    fields are ignored. *)
Definition decode (record : JsVal) : option ObjectPolicy :=
  match opt_prop record "ownerId", decode_visibility (opt_prop record "visibility"),
        decode_rules (opt_prop record "rules") with
  | JStr owner, Some v, Some rs => Some (mkPolicy owner v rs)
  | _, _, _ => None
  end.

(** *** PermissionResolver *)

(** WRITE covers READ. *)
Definition covers (granted requested : ObjectPermission) : bool :=
  match granted, requested with
  | WRITE, _ => true
  | READ, READ => true
  | READ, WRITE => false
  end.

Section CheckAccess.
(** The external membership check: is the requester a member of
    the group [{groupType, groupId}]? *)
Variable hasMember : string → string → JsVal → bool.

Fixpoint scan_rules (rs : list Rule) (requesterId : JsVal)
    (requestedPermission : ObjectPermission) : bool :=
  match rs with
  | [] => false
  | rule :: rest =>
      if hasMember (groupType rule) (groupId rule) requesterId
         && covers (permission rule) requestedPermission
      then true
      else scan_rules rest requesterId requestedPermission
  end.

(** Modelled from the spec: the permission check of objectAcl.ts is
    not among the sources.  In order: the owner is allowed; a READ
    of a PUBLIC object is allowed; otherwise the rules are scanned
    in sequence and the first rule that has the requester as a
    member and covers the requested permission allows; if no rule
    matched, deny. *)
Definition checkAccess (policy : ObjectPolicy) (requesterId : JsVal)
    (requestedPermission : ObjectPermission) : bool :=
  if strict_eqb requesterId (JStr (ownerId policy)) then true
  else
    match visibility policy, requestedPermission with
    | PUBLIC, READ => true
    | _, _ => scan_rules (rules policy) requesterId requestedPermission
    end.
End CheckAccess.

(** *** SignedUrlIssuer *)

Definition upload_origin : string := "https://storage.googleapis.com".

Fixpoint strip_prefix (p s : string) : option string :=
  match p, s with
  | EmptyString, _ => Some s
  | String a p', String b s' => if Ascii.eqb a b then strip_prefix p' s' else None
  | String _ _, EmptyString => None
  end.

Fixpoint before_query (s : string) : string :=
  match s with
  | EmptyString => ""
  | String c rest => if Ascii.eqb c "?"%char then "" else String c (before_query rest)
  end.

(** Modelled from the spec: [normalizeToObjectPath] maps an upload URL
    of the backend (origin, canonical path, signature query) back to
    the canonical internal path; any other string is taken as a path
    already. *)
Definition normalizeObjectEntityPath (rawPath : string) : string :=
  match strip_prefix upload_origin rawPath with
  | Some rest => before_query rest
  | None => rawPath
  end.

(** *** ObjectAccessGateway *)

Definition private_namespace : string := "/objects/".

Definition in_private_namespace (path : string) : bool :=
  bool_decide (is_Some (strip_prefix private_namespace path)).

(** Modelled from the spec: objectStorage.ts is not among the sources.
    A file handle is the canonical path of an object in the private
    namespace; an absent object is NotFound. *)
Definition getObjectEntityFile (objectPath : JsVal) (w : World) : Outcome string :=
  match objectPath with
  | JStr path =>
      if in_private_namespace path then
        match objects w !! path with
        | Some _ => Ok path
        | None => Throw ObjectNotFoundError
        end
      else Throw ObjectNotFoundError
  | _ => Throw ObjectNotFoundError
  end.

Definition requested_permission (v : JsVal) : ObjectPermission :=
  match decode_permission v with
  | Some p => p
  | None => READ
  end.

(** Modelled from the spec: the policy of the object is decoded
    (MalformedPolicy when the metadata is corrupt) and [checkAccess]
    decides; an object without any metadata has no policy and is
    denied.  A request that names no permission is a READ. *)
Definition canAccessObjectEntity (hasMember : string → string → JsVal → bool)
    (objectFile : string) (userId requestedPermission : JsVal) (w : World) : Outcome bool :=
  match objects w !! objectFile with
  | None => Throw ObjectNotFoundError
  | Some object =>
      match metadata object with
      | None => Ok false
      | Some record =>
          match decode record with
          | None => Throw (Error "MalformedPolicy")
          | Some policy =>
              Ok (checkAccess hasMember policy userId (requested_permission requestedPermission))
          end
      end
  end.

(** Modelled from the spec: the bytes of the object are streamed from
    the backend to the caller. *)
Definition downloadObject (file : string) (cacheTtlSec fileName : JsVal) (w : World) : Response :=
  match objects w !! file with
  | Some object => mkResponse 200 (stream (content object) cacheTtlSec fileName)
  | None => res_status_json 500 (JObj [("error", JStr "Error downloading file")])
  end.

(** Modelled from the spec: a public object lives outside the private
    namespace, under one of the PUBLIC_OBJECT_SEARCH_PATHS; no policy
    is read. *)
Definition searchPublicObject (filePath : JsVal) (w : World) : Outcome (option string) :=
  match filePath with
  | JStr path =>
      Ok (find (λ key, bool_decide (is_Some (objects w !! key)))
            ((λ searchPath, searchPath +:+ "/" +:+ path) <$> public_search_paths w))
  | _ => Ok None
  end.

(** Modelled from the spec: [attachPolicyAfterUpload] normalizes the
    URL, builds the [ObjectPolicy] (no rules unless given), encodes it
    and attaches it to the object, replacing any earlier policy. *)
Definition trySetObjectEntityAclPolicy (rawPath aclPolicy : JsVal) : M World JsVal :=
  λ w,
    match rawPath,
          decode (JObj [ ("ownerId", opt_prop aclPolicy "owner");
                         ("visibility", opt_prop aclPolicy "visibility");
                         ("rules", opt_prop aclPolicy "rules") ]) with
    | JStr url, Some policy =>
        let normalizedPath := normalizeObjectEntityPath url in
        match getObjectEntityFile (JStr normalizedPath) w with
        | Ok file =>
            (Ok (JStr normalizedPath),
             set_objects (alter (λ object, mkObject (content object) (Some (encode policy))) file) w)
        | Throw e => (Throw e, w)
        end
    | _, _ => (Throw (Error "Invalid ACL policy"), w)
    end.

Definition objectStorageService (hasMember : string → string → JsVal → bool)
    : ObjectStorageService World string :=
  Build_ObjectStorageService World string
    getObjectEntityFile
    (canAccessObjectEntity hasMember)
    downloadObject
    searchPublicObject
    trySetObjectEntityAclPolicy.

(** *** The relational store *)

Definition find_row (p : JsVal → bool) (rows : list JsVal) : JsVal :=
  default JUndefined (find p rows).

(** Modelled from the spec: server/storage.ts is not among the
    sources.  The user queries return the stored row of the user, or
    undefined. *)
Definition getUser (id : JsVal) (w : World) : Outcome JsVal :=
  Ok (find_row (λ user, strict_eqb (opt_prop user "id") id) (users w)).

Definition getUserByEmail (email : JsVal) (w : World) : Outcome JsVal :=
  Ok (find_row (λ user, strict_eqb (opt_prop user "email") email) (users w)).

(** Modelled from the spec: a new user gets a fresh id and no admin
    capability. *)
Definition createUser (data : JsVal) : M World JsVal :=
  λ w,
    let user :=
      JObj [ ("id", JStr ("user-" +:+ pretty (length (users w))));
             ("email", opt_prop data "email");
             ("password", opt_prop data "password");
             ("firstName", opt_prop data "firstName");
             ("lastName", opt_prop data "lastName");
             ("profileImageUrl", opt_prop data "profileImageUrl");
             ("isAdmin", JNum 0);
             ("createdAt", JNum (clock w));
             ("updatedAt", JNum (clock w)) ] in
    (Ok user, set_users (λ rows, rows ++ [user]) w).

Definition entry_row (e : QuoteStatusHistoryEntry) : JsVal :=
  JObj [ ("status", JStr (status_name (h_status e)));
         ("notes", h_notes e);
         ("createdAt", JNum (h_createdAt e)) ].

Definition quote_fields (q : Quote) : list (string * JsVal) :=
  [ ("id", JStr (q_id q));
    ("userId", q_userId q);
    ("status", JStr (status_name (q_status q)));
    ("finalPrice", q_finalPrice q) ] ++ q_details q.

(** A quote row, and the row with its files and status history. *)
Definition quote_row (q : Quote) : JsVal := JObj (quote_fields q).

Definition quote_with_files (q : Quote) : JsVal :=
  JObj (quote_fields q ++
        [ ("files", JArr (q_files q));
          ("statusHistory", JArr (entry_row <$> q_statusHistory q)) ]).

(** Modelled from the spec: a quote is created at REQUESTED, the only
    initial state, under a fresh id, with the creation entry of its
    status history. *)
Definition createQuote (data : JsVal) : M World JsVal :=
  λ w,
    let id := fresh (dom (quotes w)) in
    let quote :=
      mkQuote id (opt_prop data "userId") REQUESTED JNull
        (match rest_without data "userId" with JObj fields => fields | _ => [] end)
        [] [mkEntry REQUESTED JNull (clock w)] in
    (Ok (quote_row quote), set_quotes (insert id quote) w).

(** Modelled from the spec: a file row belongs to an existing quote. *)
Definition createQuoteFile (data : JsVal) : M World JsVal :=
  λ w,
    match opt_prop data "quoteId" with
    | JStr id =>
        match quotes w !! id with
        | Some quote =>
            (Ok data,
             set_quotes
               (insert id
                  (mkQuote (q_id quote) (q_userId quote) (q_status quote) (q_finalPrice quote)
                     (q_details quote) (q_files quote ++ [data]) (q_statusHistory quote))) w)
        | None => (Throw (Error "quote not found"), w)
        end
    | _ => (Throw (Error "quote not found"), w)
    end.

Definition getQuote (id : JsVal) (w : World) : Outcome JsVal :=
  match id with
  | JStr id =>
      match quotes w !! id with
      | Some quote => Ok (quote_with_files quote)
      | None => Ok JUndefined
      end
  | _ => Ok JUndefined
  end.

(** Modelled from the spec: a transition is invalid when the index of
    the new status is smaller than the index of the current status of
    the quote, or when the quote is DELIVERED, the terminal stage.
    Staying at a stage and skipping stages forward are valid. *)
Definition invalid_transition (current newStatus : QuoteStatus) : bool :=
  (index newStatus <? index current)
  || match current with DELIVERED => true | _ => false end.

(** Modelled from the spec: server/storage.ts is not among the
    sources.  [transitionTo] fails with InvalidTransition for an
    invalid transition; otherwise it writes the new status of the quote
    and appends the history entry [{status, notes, createdAt}] in one
    unit of work.  A quote that is absent, or a status that is none of
    the seven stages, makes the unit of work fail as a whole.  A
    failure changes nothing. *)
Definition updateQuoteStatus (id status notes : JsVal) : M World JsVal :=
  λ w,
    match id, status with
    | JStr id, JStr name =>
        match quotes w !! id, status_of_name name with
        | Some quote, Some newStatus =>
            if invalid_transition (q_status quote) newStatus then
              (Throw (Error "InvalidTransition"), w)
            else
              let updated :=
                mkQuote (q_id quote) (q_userId quote) newStatus (q_finalPrice quote)
                  (q_details quote) (q_files quote)
                  (q_statusHistory quote ++ [mkEntry newStatus notes (clock w)]) in
              (Ok (quote_row updated), set_quotes (insert id updated) w)
        | _, _ => (Throw (Error "update failed"), w)
        end
    | _, _ => (Throw (Error "update failed"), w)
    end.

(** Modelled from the spec: the final price of an existing quote is
    replaced; nothing else of the quote changes. *)
Definition updateQuotePrice (id finalPrice : JsVal) : M World JsVal :=
  λ w,
    match id with
    | JStr id =>
        match quotes w !! id with
        | Some quote =>
            let updated :=
              mkQuote (q_id quote) (q_userId quote) (q_status quote) finalPrice
                (q_details quote) (q_files quote) (q_statusHistory quote) in
            (Ok (quote_row updated), set_quotes (insert id updated) w)
        | None => (Throw (Error "update failed"), w)
        end
    | _ => (Throw (Error "update failed"), w)
    end.

Definition storage : IStorage World :=
  Build_IStorage World
    getUser getUser getUserByEmail createUser
    createQuote createQuoteFile getQuote
    updateQuoteStatus updateQuotePrice.

(** *** Request schemas, password hashing and sessions *)

Definition is_string (v : JsVal) : bool :=
  match v with JStr _ => true | _ => false end.

Definition optional_string (v : JsVal) : bool :=
  match v with JStr _ | JUndefined => true | _ => false end.

Definition invalid_input : Outcome JsVal := Throw (ZodError (JArr [JStr "Invalid input"])).

(** Modelled from the spec: shared/schema.ts is not among the sources.
    A registration carries an email and a password and may carry the
    names and the profile image. *)
Definition insertUserSchema (body : JsVal) : Outcome JsVal :=
  if is_string (opt_prop body "email") && is_string (opt_prop body "password")
     && optional_string (opt_prop body "firstName")
     && optional_string (opt_prop body "lastName")
     && optional_string (opt_prop body "profileImageUrl")
  then Ok (JObj [ ("email", opt_prop body "email");
                  ("password", opt_prop body "password");
                  ("firstName", opt_prop body "firstName");
                  ("lastName", opt_prop body "lastName");
                  ("profileImageUrl", opt_prop body "profileImageUrl") ])
  else invalid_input.

Definition loginUserSchema (body : JsVal) : Outcome JsVal :=
  if is_string (opt_prop body "email") && is_string (opt_prop body "password")
  then Ok (JObj [("email", opt_prop body "email"); ("password", opt_prop body "password")])
  else invalid_input.

(** Modelled from the spec: a quote request names its service and may
    carry a target price. *)
Definition insertQuoteSchema (body : JsVal) : Outcome JsVal :=
  if is_string (opt_prop body "service") && optional_string (opt_prop body "targetPrice")
  then Ok (JObj [("service", opt_prop body "service");
                 ("targetPrice", opt_prop body "targetPrice")])
  else invalid_input.

(** Modelled from the spec: the body [{status, notes}], with [status]
    one of the seven stages. *)
Definition updateQuoteStatusSchema (body : JsVal) : Outcome JsVal :=
  match opt_prop body "status" with
  | JStr name =>
      if bool_decide (is_Some (status_of_name name)) && optional_string (opt_prop body "notes")
      then Ok (JObj [("status", JStr name); ("notes", opt_prop body "notes")])
      else invalid_input
  | _ => invalid_input
  end.

(** Modelled from the spec: the body [{finalPrice}], a monetary
    amount in decimal notation. *)
Definition updateQuotePriceSchema (body : JsVal) : Outcome JsVal :=
  if is_string (opt_prop body "finalPrice")
  then Ok (JObj [("finalPrice", opt_prop body "finalPrice")])
  else invalid_input.

Definition schemas : Schemas :=
  Build_Schemas insertUserSchema loginUserSchema insertQuoteSchema
    updateQuoteStatusSchema updateQuotePriceSchema.

(** A stand-in for bcrypt (its salt is left out) and a session store
    that keeps the serialized users. *)
Definition bcrypt_hash (password : JsVal) (rounds : Z) : Outcome JsVal :=
  match password with
  | JStr s => Ok (JStr ("$2b$" +:+ pretty rounds +:+ "$" +:+ s))
  | _ => Throw (Error "data and salt arguments required")
  end.

Definition bcrypt_compare (password hash : JsVal) : Outcome bool :=
  match bcrypt_hash password SALT_ROUNDS with
  | Ok h => Ok (strict_eqb h hash)
  | Throw e => Throw e
  end.

Definition session_save (id : JsVal) : M World () :=
  λ w, (Ok (), set_sessions (λ ids, ids ++ [id]) w).

Definition auth : AuthBackend World :=
  Build_AuthBackend World bcrypt_hash bcrypt_compare session_save.
End Reference.

(** ** Observations on requests and responses *)

(** The two administrative updates of a quote. *)
Inductive AdminRoute : Type := status_route | price_route.

Definition admin_route_schema (schemas : Schemas) (route : AdminRoute) : JsVal → Outcome JsVal :=
  match route with
  | status_route => updateQuoteStatusSchema schemas
  | price_route => updateQuotePriceSchema schemas
  end.

Definition admin_route {W} (storage : IStorage W) (schemas : Schemas) (route : AdminRoute)
    : Request → W → Response * W :=
  match route with
  | status_route => put_api_admin_quotes_id_status storage schemas
  | price_route => put_api_admin_quotes_id_price storage schemas
  end.

(** [user?.isAdmin !== 1] *)
Definition not_admin (user : JsVal) : bool :=
  negb (strict_eqb (opt_prop user "isAdmin") (JNum 1)).


Definition property_names (v : JsVal) : list string :=
  match v with
  | JObj fields => keys fields
  | _ => []
  end.


(** The same request made by another (or no) user. *)
Definition with_user (user : JsVal) (req : Request) : Request :=
  mkRequest user (req_body req) (req_params_id req) (req_params_filePath req)
    (req_path req) (req_query req).

(** ** Observations on the reference implementation *)

(** The status history and the current status of quote [id]. *)
Definition history_of (id : string) (w : World) : list QuoteStatusHistoryEntry :=
  match quotes w !! id with
  | Some quote => q_statusHistory quote
  | None => []
  end.

Definition status_of (id : string) (w : World) : option QuoteStatus :=
  q_status <$> quotes w !! id.

(** The quote after its status was set to [newStatus] at [time]. *)
Definition transitioned (quote : Quote) (newStatus : QuoteStatus) (notes : JsVal) (time : Z) : Quote :=
  mkQuote (q_id quote) (q_userId quote) newStatus (q_finalPrice quote)
    (q_details quote) (q_files quote)
    (q_statusHistory quote ++ [mkEntry newStatus notes time]).

(** A sequence of requests to PUT /api/admin/quotes/:id/status, served
    one after the other. *)
Fixpoint status_updates (reqs : list Request) (w : World) : list Response * World :=
  match reqs with
  | [] => ([], w)
  | req :: rest =>
      let '(r, w1) := put_api_admin_quotes_id_status Reference.storage Reference.schemas req w in
      let '(rs, w2) := status_updates rest w1 in
      (r :: rs, w2)
  end.

(** The request was a successful transition of quote [id]. *)
Definition is_transition_of (id : string) (exchange : Request * Response) : bool :=
  strict_eqb (req_params_id exchange.1) (JStr id) && (status exchange.2 =? 200).

Definition successful_transitions (id : string) (reqs : list Request) (rs : list Response) : nat :=
  length (filter (λ exchange, is_transition_of id exchange = true) (zip reqs rs)).

(** The most recent entry of the history of quote [id] carries the
    current status of the quote. *)
Definition history_consistent (id : string) (w : World) : Prop :=
  ∃ quote entry,
    quotes w !! id = Some quote
    ∧ last (q_statusHistory quote) = Some entry
    ∧ h_status entry = q_status quote.

(** The object at [path] carries the encoded [policy]. *)
Definition has_policy (policy : ObjectPolicy) (path : string) (w : World) : Prop :=
  ∃ object, objects w !! path = Some object
            ∧ metadata object = Some (Reference.encode policy).

(** The upload URL of a file of a quote request, and the files of a
    request body that pass [filesSchema]. *)
Definition upload_url (file : JsVal) : string :=
  match opt_prop file "uploadURL" with
  | JStr url => url
  | _ => ""
  end.

Definition validated_files (body : JsVal) : list JsVal :=
  match filesSchema body with
  | Ok validated =>
      match opt_prop validated "files" with
      | JArr files => files
      | _ => []
      end
  | Throw _ => []
  end.

(** The canonical object path of an uploaded file. *)
Definition object_path (file : JsVal) : JsVal :=
  JStr (Reference.normalizeObjectEntityPath (upload_url file)).

(** The file names an object that is there, in the private namespace. *)
Definition is_uploaded (w : World) (file : JsVal) : bool :=
  match Reference.getObjectEntityFile (object_path file) w with
  | Ok _ => true
  | Throw _ => false
  end.

(** ** Sample data *)

Module Sample.
Definition admin : JsVal :=
  JObj [ ("id", JStr "a1"); ("email", JStr "admin@manhub.example");
         ("password", JStr "$2b$10$admin-secret"); ("isAdmin", JNum 1) ].

Definition customer : JsVal :=
  JObj [ ("id", JStr "u1"); ("email", JStr "ada@customer.example");
         ("password", JStr "$2b$10$ada-secret"); ("isAdmin", JNum 0) ].

Definition visitor : JsVal :=
  JObj [ ("id", JStr "u2"); ("email", JStr "bob@customer.example");
         ("password", JStr "$2b$10$bob-secret"); ("isAdmin", JNum 0) ].

(** A quote of the customer that went all the way to DELIVERED. *)
Definition delivered : Quote :=
  mkQuote "q1" (JStr "u1") DELIVERED (JStr "120.00")
    [("service", JStr "cnc_machining")] []
    [ mkEntry REQUESTED JNull 1; mkEntry PROVIDED (JStr "quoted") 2;
      mkEntry DELIVERED JNull 3 ].

Definition drawing : list Byte.byte := [Byte.x53; Byte.x54; Byte.x45; Byte.x50].
Definition logo : list Byte.byte := [Byte.x89; Byte.x50; Byte.x4e; Byte.x47].

Definition world : World :=
  mkWorld [admin; customer; visitor]
    (<["q1" := delivered]> ∅)
    (<["/objects/uploads/drawing" :=
         mkObject drawing (Some (Reference.encode (mkPolicy "u1" PRIVATE [])))]>
       (<["/objects/uploads/bracket" := mkObject drawing None]>
          (<["/bucket/public/logo.png" := mkObject logo None]> ∅)))
    ["/bucket/public"] [] 4.

Definition no_groups : string → string → JsVal → bool := λ _ _ _, false.

Definition objectStorageService : ObjectStorageService World string :=
  Reference.objectStorageService no_groups.

(** A request of [user] (as put on the request by passport) with a
    body, for the quote [id]. *)
Definition quote_request (user body : JsVal) (id : string) : Request :=
  mkRequest (userWithoutPassword user) body (JStr id) JUndefined JUndefined (JObj []).

(** A request of [user] for the object at [path]. *)
Definition object_request (user : JsVal) (path : string) : Request :=
  mkRequest (userWithoutPassword user) JUndefined JUndefined JUndefined (JStr path)
    (JObj [("filename", JStr "drawing.step")]).

(** A request without a session for the public file [filePath]. *)
Definition public_request (filePath : string) : Request :=
  mkRequest JUndefined JUndefined JUndefined (JStr filePath) JUndefined (JObj []).

Definition anonymous_request (body : JsVal) : Request :=
  mkRequest JUndefined body JUndefined JUndefined JUndefined (JObj []).

Definition reopen : JsVal := JObj [("status", JStr "quote_requested"); ("notes", JStr "reopen")].
Definition ship : JsVal := JObj [("status", JStr "shipped")].
Definition cancelled : JsVal := JObj [("status", JStr "cancelled")].
Definition price : JsVal := JObj [("finalPrice", JStr "135.50")].

Definition new_quote : JsVal :=
  JObj [ ("service", JStr "laser_cutting");
         ("files",
          JArr [ JObj [ ("uploadURL",
                         JStr "https://storage.googleapis.com/objects/uploads/bracket?X-Goog-Signature=9f2c");
                        ("name", JStr "bracket.v2.step");
                        ("size", JNum 20480) ] ]) ].


End Sample.

(** ** The other routes of server/routes.ts *)

(** The methods of [storage] that list quotes. *)
Record IStorageLists (W : Type) : Type := {
  getQuotesByUser : JsVal → W → Outcome JsVal;
  getAllQuotes : W → Outcome JsVal
}.
Arguments getQuotesByUser {W}.
Arguments getAllQuotes {W}.

Section OtherRoutes.
Context {W : Type}.
Context (storage : IStorage W).
Context (lists : IStorageLists W).
(** [objectStorageService.getObjectEntityUploadURL()] *)
Context (getObjectEntityUploadURL : M W JsVal).
(** [req.logout(callback)]: the end of the session, or the callback's [err]. *)
Context (req_logout : M W ()).

(** POST /api/logout *)
Definition post_api_logout (req : Request) : W → Response * W :=
  λ w, match req_logout w with
       | (Throw err, w') => (res_status_json 500 (JObj [("message", JStr "Logout failed")]), w')
       | (Ok _, w') => (res_json (JObj [("message", JStr "Logged out successfully")]), w')
       end.

(** POST /api/objects/upload *)
Definition post_api_objects_upload (req : Request) : W → Response * W :=
  isAuthenticated req
    (try_catch
       (let* result := getObjectEntityUploadURL in
        let* uploadURL := pure (prop result "uploadURL") in
        let* objectPath := pure (prop result "objectPath") in
        ret (res_json (JObj [("uploadURL", uploadURL); ("objectPath", objectPath)])))
       (λ error, res_status_json 500 (JObj [("error", JStr "Internal server error")]))).

(** GET /api/quotes *)
Definition get_api_quotes (req : Request) : W → Response * W :=
  isAuthenticated req
    (try_catch
       (let* userId := pure (prop (req_user req) "id") in
        let* quotes := query (getQuotesByUser lists userId) in
        ret (res_json quotes))
       (λ error, res_status_json 500 (JObj [("error", JStr "Internal server error")]))).

(** GET /api/admin/quotes *)
Definition get_api_admin_quotes (req : Request) : W → Response * W :=
  isAuthenticated req
    (try_catch
       (let* userId := pure (prop (req_user req) "id") in
        let* user := query (getUser storage userId) in
        if negb (strict_eqb (opt_prop user "isAdmin") (JNum 1)) then
          ret forbidden_admin_required
        else
          let* quotesWithFiles := query (getAllQuotes lists) in
          ret (res_json quotesWithFiles))
       (λ error, res_status_json 500 (JObj [("error", JStr "Internal server error")]))).
End OtherRoutes.

(** [name.includes(".")] *)
Fixpoint has_dot (s : string) : bool :=
  match s with
  | EmptyString => false
  | String c rest => Ascii.eqb c "."%char || has_dot rest
  end.

(** ** The routes registered by [registerRoutes] *)

Inductive Route : Type :=
| register_route | login_route | logout_route | auth_user_route
| objects_upload_route | objects_route | public_objects_route
| quotes_post_route | quotes_list_route | quotes_id_route
| admin_quotes_route | admin_status_route | admin_price_route.

(** The routes registered with the [isAuthenticated] middleware. *)
Definition protected (route : Route) : bool :=
  match route with
  | register_route | login_route | logout_route | public_objects_route => false
  | _ => true
  end.

(** The routes whose answer on success is written by [downloadObject]. *)
Definition streams (route : Route) : bool :=
  match route with
  | objects_route | public_objects_route => true
  | _ => false
  end.

(** Everything the routes call. *)
Record Services (W File : Type) : Type := {
  the_storage : IStorage W;
  the_lists : IStorageLists W;
  the_objectStorageService : ObjectStorageService W File;
  the_getObjectEntityUploadURL : M W JsVal;
  the_schemas : Schemas;
  the_auth : AuthBackend W;
  the_req_logout : M W ()
}.
Arguments the_storage {W File}.
Arguments the_lists {W File}.
Arguments the_objectStorageService {W File}.
Arguments the_getObjectEntityUploadURL {W File}.
Arguments the_schemas {W File}.
Arguments the_auth {W File}.
Arguments the_req_logout {W File}.

Definition serve {W File} (s : Services W File) (route : Route) : Request → W → Response * W :=
  match route with
  | register_route => post_api_register (the_storage s) (the_schemas s) (the_auth s)
  | login_route => post_api_login (the_storage s) (the_schemas s) (the_auth s)
  | logout_route => post_api_logout (the_req_logout s)
  | auth_user_route => get_api_auth_user (the_storage s)
  | objects_upload_route => post_api_objects_upload (the_getObjectEntityUploadURL s)
  | objects_route => get_objects (the_objectStorageService s)
  | public_objects_route => get_public_objects (the_objectStorageService s)
  | quotes_post_route =>
      post_api_quotes (the_storage s) (the_objectStorageService s) (the_schemas s)
  | quotes_list_route => get_api_quotes (the_lists s)
  | quotes_id_route => get_api_quotes_id (the_storage s)
  | admin_quotes_route => get_api_admin_quotes (the_storage s) (the_lists s)
  | admin_status_route => put_api_admin_quotes_id_status (the_storage s) (the_schemas s)
  | admin_price_route => put_api_admin_quotes_id_price (the_storage s) (the_schemas s)
  end.

(** The status codes a route answers with. *)
Definition statuses (route : Route) : list Z :=
  match route with
  | register_route => [200; 400; 500]
  | login_route => [200; 400; 401; 500]
  | logout_route => [200; 500]
  | auth_user_route => [200; 401; 404; 500]
  | objects_upload_route => [200; 401; 500]
  | objects_route => [401; 404; 500]
  | public_objects_route => [404; 500]
  | quotes_post_route => [200; 400; 401; 500]
  | quotes_list_route => [200; 401; 500]
  | quotes_id_route => [200; 401; 403; 404; 500]
  | admin_quotes_route => [200; 401; 403; 500]
  | admin_status_route | admin_price_route => [200; 400; 401; 403; 500]
  end.

(** Services for the sample data: the quotes of the reference world,
    listed for a user or for the admin; an upload URL for a fixed key;
    a logout that empties the session store. *)
Module SampleServices.
Definition lists : IStorageLists World :=
  Build_IStorageLists World
    (λ userId w,
       Ok (JArr (Reference.quote_with_files <$>
                 filter (λ q, strict_eqb (q_userId q) userId = true) (map_to_list (quotes w)).*2)))
    (λ w, Ok (JArr (Reference.quote_with_files <$> (map_to_list (quotes w)).*2))).

Definition getObjectEntityUploadURL : M World JsVal :=
  λ w, (Ok (JObj [ ("uploadURL",
                    JStr "https://storage.googleapis.com/objects/uploads/gasket?X-Goog-Signature=51ab");
                   ("objectPath", JStr "/objects/uploads/gasket") ]), w).

Definition req_logout : M World () := λ w, (Ok (), set_sessions (λ _, []) w).

Definition services : Services World string :=
  Build_Services World string
    Reference.storage lists Sample.objectStorageService getObjectEntityUploadURL
    Reference.schemas Reference.auth req_logout.


(** A store that creates quotes for the user u1 only. *)
Definition careful_quotes : IStorage World :=
  Build_IStorage World
    Reference.getUser Reference.getUser Reference.getUserByEmail Reference.createUser
    (λ data w,
       if strict_eqb (opt_prop data "userId") (JStr "u1") then Reference.createQuote data w
       else (Throw (Error "refused"), w))
    Reference.createQuoteFile Reference.getQuote
    Reference.updateQuoteStatus Reference.updateQuotePrice.

(** A user whose [isAdmin] is the string "1", and a world with this
    user. *)
Definition clerk : JsVal :=
  JObj [ ("id", JStr "c1"); ("email", JStr "clerk@manhub.example");
         ("password", JStr "$2b$10$clerk-secret"); ("isAdmin", JStr "1") ].

Definition office : World :=
  mkWorld [Sample.admin; clerk] (<["q1" := Sample.delivered]> ∅) ∅ [] [] 4.

(** A quote of the customer at PROVIDED, and a world with this quote
    and the delivered one. *)
Definition in_progress : Quote :=
  mkQuote "q2" (JStr "u1") PROVIDED (JStr "80.00")
    [("service", JStr "laser_cutting")] []
    [mkEntry REQUESTED JNull 1; mkEntry PROVIDED (JStr "quoted") 2].

Definition workshop : World :=
  mkWorld [Sample.admin; Sample.customer]
    (<["q2" := in_progress]> (<["q1" := Sample.delivered]> ∅)) ∅ [] [] 4.

Definition taken : JsVal :=
  JObj [("email", JStr "ada@customer.example"); ("password", JStr "another-secret")].

Definition wrong_password : JsVal :=
  JObj [("email", JStr "ada@customer.example"); ("password", JStr "guess")].

Definition unknown_email : JsVal :=
  JObj [("email", JStr "nobody@customer.example"); ("password", JStr "guess")].

Definition no_files : JsVal :=
  JObj [("service", JStr "laser_cutting"); ("files", JArr [])].

(** A quote request that names another user. *)
Definition for_someone_else : JsVal :=
  JObj [ ("service", JStr "laser_cutting"); ("userId", JStr "u2");
         ("files",
          JArr [ JObj [ ("uploadURL",
                         JStr "https://storage.googleapis.com/objects/uploads/bracket?X-Goog-Signature=9f2c");
                        ("name", JStr "bracket.step") ] ]) ].
End SampleServices.

(** ** Properties of the route handlers, for any implementation of the services *)

Lemma prop_truthy (o : JsVal) (k : string) :
  truthy o = true → prop o k = Ok (opt_prop o k).
Proof. destruct o; simpl; intros H; try discriminate; reflexivity. Qed.


Lemma assoc_app (k : string) (l1 l2 : list (string * JsVal)) :
  assoc k (l1 ++ l2) = match assoc k l1 with
                       | JUndefined => if bool_decide (k ∈ keys l1) then JUndefined else assoc k l2
                       | v => v
                       end.
Proof.
  induction l1 as [|[k0 v] rest IH]; simpl.
  - reflexivity.
  - unfold keys in *. simpl. destruct (String.eqb_spec k k0) as [->|Hne].
    + rewrite bool_decide_eq_true_2 by set_solver. destruct v; reflexivity.
    + rewrite IH. destruct (assoc k rest); try reflexivity.
      destruct (decide (k ∈ rest.*1)).
      * rewrite !bool_decide_eq_true_2 by set_solver. reflexivity.
      * rewrite !bool_decide_eq_false_2 by set_solver. reflexivity.
Qed.

Lemma not_elem_of_remove_key (k : string) (fields : list (string * JsVal)) :
  k ∉ keys (remove_key k fields).
Proof.
  unfold keys. induction fields as [|[k0 v] rest IH]; simpl; [set_solver|].
  destruct (String.eqb_spec k k0); simpl; set_solver.
Qed.

Lemma assoc_not_elem_of (k : string) (fields : list (string * JsVal)) :
  k ∉ keys fields → assoc k fields = JUndefined.
Proof.
  unfold keys. induction fields as [|[k0 v] rest IH]; simpl; [reflexivity|].
  intros Hnot. destruct (String.eqb_spec k k0); [set_solver|]. apply IH. set_solver.
Qed.



Section RouteFacts.
Context {W File : Type}.
Context (storage : IStorage W).
Context (objectStorageService : ObjectStorageService W File).
Context (schemas : Schemas).
Context (auth : AuthBackend W).

(** C2: a request of an authenticated user for whom [user?.isAdmin !== 1]
    (the user row lacks the admin flag, or there is no such row) to
    PUT /api/admin/quotes/:id/status or /price is answered 403
    "Forbidden - Admin access required", whatever the body and the
    quote id, and nothing behind the services changes. *)
Theorem non_admin_forbidden (route : AdminRoute) (req : Request) (w : W) (user : JsVal) :
  truthy (req_user req) = true →
  getUser storage (opt_prop (req_user req) "id") w = Ok user →
  not_admin user = true →
  admin_route storage schemas route req w = (forbidden_admin_required, w)
  ∧ status forbidden_admin_required = 403.
Proof.
  intros Hauth Huser Hnot. split; [|reflexivity].
  destruct route; simpl;
    unfold put_api_admin_quotes_id_status, put_api_admin_quotes_id_price,
      isAuthenticated, try_catch, bind, pure, query, ret;
    rewrite Hauth, (prop_truthy _ _ Hauth), Huser;
    fold (not_admin user); rewrite Hnot; reflexivity.
Qed.

(** The status route has five answers. *)
Lemma status_route_answers (req : Request) (w : W) :
  status (put_api_admin_quotes_id_status storage schemas req w).1 ∈ [200; 400; 401; 403; 500].
Proof.
  unfold put_api_admin_quotes_id_status, isAuthenticated, try_catch, bind, pure, query, ret,
    catch_error, forbidden_admin_required, res_json, res_status_json.
  repeat case_match; simplify_eq/=; set_solver.
Qed.

(** Whatever makes the store reject a status update, the route answers
    with the same 500 "Internal server error". *)
Lemma status_route_store_failure (req : Request) (w w' : W) (user validatedData : JsVal)
    (e : Exn) :
  truthy (req_user req) = true →
  getUser storage (opt_prop (req_user req) "id") w = Ok user →
  not_admin user = false →
  updateQuoteStatusSchema schemas (req_body req) = Ok validatedData →
  updateQuoteStatus storage (req_params_id req) (opt_prop validatedData "status")
    (opt_prop validatedData "notes") w = (Throw e, w') →
  (∀ errors, e ≠ ZodError errors) →
  put_api_admin_quotes_id_status storage schemas req w
  = (res_status_json 500 (JObj [("error", JStr "Internal server error")]), w').
Proof.
  intros Hauth Huser Hadmin Hparse Hupdate He.
  unfold put_api_admin_quotes_id_status, isAuthenticated, try_catch, bind, pure, query, ret.
  rewrite Hauth, (prop_truthy _ _ Hauth), Huser.
  fold (not_admin user). rewrite Hadmin, Hparse, Hupdate.
  destruct e; try reflexivity. by destruct (He errors).
Qed.

(** C8: a request of an admin to PUT /api/admin/quotes/:id/status or
    /price whose body the schema of the route rejects is answered 400
    with the validation issues, and nothing behind the services
    changes: the store is not called. *)
Theorem malformed_body_400 (route : AdminRoute) (req : Request) (w : W)
    (user errors : JsVal) :
  truthy (req_user req) = true →
  getUser storage (opt_prop (req_user req) "id") w = Ok user →
  not_admin user = false →
  admin_route_schema schemas route (req_body req) = Throw (ZodError errors) →
  admin_route storage schemas route req w
  = (res_status_json 400 (JObj [("error", JStr "Validation error"); ("details", errors)]), w).
Proof.
  intros Hauth Huser Hadmin Hparse.
  destruct route; simpl in *;
    unfold put_api_admin_quotes_id_status, put_api_admin_quotes_id_price,
      isAuthenticated, try_catch, bind, pure, query, ret;
    rewrite Hauth, (prop_truthy _ _ Hauth), Huser;
    fold (not_admin user); rewrite Hadmin, Hparse; reflexivity.
Qed.

(** C10: GET /api/quotes/:id by an authenticated user: an absent quote
    is answered 404; a quote of another user, asked for by a user who
    is not an admin, is answered 403 with no part of the quote in the
    response; the owner and an admin get the quote. *)
Theorem quote_read_access (req : Request) (w : W) (quote user : JsVal) :
  truthy (req_user req) = true →
  getQuote storage (req_params_id req) w = Ok quote →
  getUser storage (opt_prop (req_user req) "id") w = Ok user →
  get_api_quotes_id storage req w =
    (if negb (truthy quote) then
       res_status_json 404 (JObj [("error", JStr "Quote not found")])
     else if negb (strict_eqb (opt_prop quote "userId") (opt_prop (req_user req) "id"))
             && not_admin user then
       res_status_json 403 (JObj [("error", JStr "Forbidden")])
     else res_json quote, w).
Proof.
  intros Hauth Hquote Huser.
  unfold get_api_quotes_id, isAuthenticated, try_catch, bind, pure, query, ret.
  rewrite Hauth, (prop_truthy _ _ Hauth), Hquote.
  destruct (truthy quote); simpl; [|reflexivity].
  rewrite Huser. fold (not_admin user).
  destruct (_ && _); reflexivity.
Qed.

(** C4: GET /objects/:objectPath by an authenticated user: when the
    object is absent ([getObjectEntityFile] throws ObjectNotFoundError)
    the answer is 404, whatever the access check would say; when the
    object exists and the access check denies, 401; when it allows,
    the answer is the one [downloadObject] writes for the object, with
    a cache lifetime of 3600 seconds and the requested file name. *)
Theorem object_download_responses (req : Request) (w : W) :
  truthy (req_user req) = true →
  (getObjectEntityFile objectStorageService (req_path req) w = Throw ObjectNotFoundError →
   get_objects objectStorageService req w = (res_sendStatus 404, w))
  ∧ (∀ objectFile,
       getObjectEntityFile objectStorageService (req_path req) w = Ok objectFile →
       canAccessObjectEntity objectStorageService objectFile
         (opt_prop (req_user req) "id") JUndefined w = Ok false →
       get_objects objectStorageService req w = (res_sendStatus 401, w))
  ∧ (∀ objectFile,
       getObjectEntityFile objectStorageService (req_path req) w = Ok objectFile →
       canAccessObjectEntity objectStorageService objectFile
         (opt_prop (req_user req) "id") JUndefined w = Ok true →
       get_objects objectStorageService req w =
         (downloadObject objectStorageService objectFile (JNum 3600)
            (opt_prop (req_query req) "filename") w, w)).
Proof.
  intros Hauth.
  unfold get_objects, isAuthenticated, try_catch, bind, pure, query, ret.
  rewrite Hauth. repeat split.
  - intros ->. reflexivity.
  - intros objectFile -> ->. reflexivity.
  - intros objectFile -> ->. reflexivity.
Qed.

(** C7: GET /public-objects/:filePath: when the search finds no public
    object the answer is 404 "File not found", otherwise it is the one
    [downloadObject] writes for the object found; the answer is the
    same for any user or none, and the same for any access check and
    policy handling of the service. *)
Theorem public_object_responses (req : Request) (w : W) :
  (searchPublicObject objectStorageService (req_params_filePath req) w = Ok None →
   get_public_objects objectStorageService req w =
     (res_status_json 404 (JObj [("error", JStr "File not found")]), w))
  ∧ (∀ file,
       searchPublicObject objectStorageService (req_params_filePath req) w = Ok (Some file) →
       get_public_objects objectStorageService req w =
         (downloadObject objectStorageService file JUndefined JUndefined w, w))
  ∧ (∀ user,
       get_public_objects objectStorageService (with_user user req) w =
       get_public_objects objectStorageService req w)
  ∧ (∀ other : ObjectStorageService W File,
       searchPublicObject other = searchPublicObject objectStorageService →
       downloadObject other = downloadObject objectStorageService →
       get_public_objects other req w = get_public_objects objectStorageService req w).
Proof.
  unfold get_public_objects, try_catch, bind, query, ret. repeat split.
  - intros ->. reflexivity.
  - intros file ->. reflexivity.
  - intros other -> ->. reflexivity.
Qed.



End RouteFacts.

(** ** Properties of the reference implementation *)

(** C5: [checkAccess] allows the owner of a policy every permission,
    whatever the visibility, the rules and the group memberships. *)
Theorem owner_always_allowed (hasMember : string → string → JsVal → bool)
    (policy : ObjectPolicy) (requestedPermission : ObjectPermission) :
  Reference.checkAccess hasMember policy (JStr (ownerId policy)) requestedPermission = true.
Proof.
  unfold Reference.checkAccess. simpl. rewrite String.eqb_refl. reflexivity.
Qed.

(** The reference [downloadObject] answers 200 with the bytes of the
    object, for every file handle that [getObjectEntityFile] or
    [searchPublicObject] returns. *)
Lemma reference_download_streams (file : string) (object : StoredObject)
    (cacheTtlSec fileName : JsVal) (w : World) :
  objects w !! file = Some object →
  Reference.downloadObject file cacheTtlSec fileName w
  = mkResponse 200 (stream (content object) cacheTtlSec fileName).
Proof. unfold Reference.downloadObject. by intros ->. Qed.

Lemma reference_file_exists (path : JsVal) (file : string) (w : World) :
  Reference.getObjectEntityFile path w = Ok file → is_Some (objects w !! file).
Proof.
  unfold Reference.getObjectEntityFile. intros H.
  repeat case_match; simplify_eq. eauto.
Qed.

Lemma status_of_name_status_name (s : QuoteStatus) : status_of_name (status_name s) = Some s.
Proof. destruct s; reflexivity. Qed.

(** What a request to the status route does to the reference store:
    either nothing, with a status other than 200, or the transition of
    the quote named by the request. *)
Lemma put_status_cases (req : Request) (w : World) :
  let '(r, w') := put_api_admin_quotes_id_status Reference.storage Reference.schemas req w in
  (status r ≠ 200 ∧ w' = w)
  ∨ (∃ id quote newStatus notes,
       req_params_id req = JStr id ∧ quotes w !! id = Some quote
       ∧ status r = 200
       ∧ w' = set_quotes (insert id (transitioned quote newStatus notes (clock w))) w).
Proof.
  unfold put_api_admin_quotes_id_status, isAuthenticated, try_catch, bind, pure, query, ret,
    catch_error, forbidden_admin_required, res_json, res_status_json.
  simpl. unfold Reference.updateQuoteStatus, Reference.updateQuoteStatusSchema, Reference.invalid_input.
  repeat (case_match; simplify_eq/=); try (left; split; [discriminate|reflexivity]).
  right. eauto 10.
Qed.

Lemma put_status_step (id : string) (req : Request) (w : World) :
  history_consistent id w →
  let '(r, w') := put_api_admin_quotes_id_status Reference.storage Reference.schemas req w in
  history_consistent id w'
  ∧ ∃ new, history_of id w' = history_of id w ++ new
           ∧ length new = (if is_transition_of id (req, r) then 1 else 0)%nat.
Proof.
  intros (quote & entry & Hq & Hlast & Hst).
  pose proof (put_status_cases req w) as Hcases.
  destruct (put_api_admin_quotes_id_status _ _ req w) as [r w'].
  destruct Hcases as [[Hne ->] | (id' & quote' & newStatus & notes & Hid & Hq' & H200 & ->)].
  - split; [by exists quote, entry|].
    exists []. rewrite app_nil_r. split; [done|].
    unfold is_transition_of. simpl.
    destruct (Z.eqb_spec (status r) 200); [done|]. by rewrite andb_false_r.
  - unfold is_transition_of, history_of, history_consistent. simpl.
    rewrite Hid, H200. simpl.
    destruct (String.eqb_spec id' id) as [->|Hneq].
    + rewrite lookup_insert_eq. simplify_eq. split.
      * eexists _, _. split; [done|]. simpl. by rewrite last_snoc.
      * rewrite Hq. simpl. by eexists [_].
    + rewrite lookup_insert_ne by done. split.
      * by exists quote, entry.
      * exists []. by rewrite app_nil_r.
Qed.

Lemma status_updates_history (id : string) (reqs : list Request) :
  ∀ w, history_consistent id w →
  let '(rs, w') := status_updates reqs w in
  history_consistent id w'
  ∧ ∃ new, history_of id w' = history_of id w ++ new
           ∧ length new = successful_transitions id reqs rs.
Proof.
  induction reqs as [|req rest IH]; intros w Hw; simpl.
  - split; [done|]. exists []. by rewrite app_nil_r.
  - pose proof (put_status_step id req w Hw) as Hstep.
    destruct (put_api_admin_quotes_id_status _ _ req w) as [r w1].
    destruct Hstep as (Hw1 & new1 & Hh1 & Hl1).
    specialize (IH w1 Hw1).
    destruct (status_updates rest w1) as [rs w2].
    destruct IH as (Hw2 & new2 & Hh2 & Hl2).
    split; [done|]. exists (new1 ++ new2).
    rewrite Hh2, Hh1, <- app_assoc. split; [done|].
    rewrite length_app, Hl1, Hl2.
    unfold successful_transitions. simpl.
    rewrite filter_cons. destruct (is_transition_of id (req, r)); simpl; done.
Qed.

(** C3: from the creation of a quote on, after any sequence of requests
    to the status route, the most recent entry of the quote's history
    carries its current status; the history has one entry more than
    there were successful transitions of the quote; and whatever
    requests follow, the history so far stays as the beginning of the
    later history: entries are only appended. *)
Theorem history_is_audit_trail (data : JsVal) (w0 : World) (reqs more : list Request) :
  let id := fresh (dom (quotes w0)) in
  let w1 := (Reference.createQuote data w0).2 in
  let '(rs, w2) := status_updates reqs w1 in
  history_consistent id w2
  ∧ length (history_of id w2) = S (successful_transitions id reqs rs)
  ∧ history_of id w2 `prefix_of` history_of id (status_updates more w2).2.
Proof.
  intros id w1.
  assert (Hw1 : history_consistent id w1).
  { unfold history_consistent, w1, id. simpl. rewrite lookup_insert_eq.
    eexists _, _. split; [done|]. done. }
  assert (Hh1 : length (history_of id w1) = 1%nat).
  { unfold history_of, w1, id. simpl. by rewrite lookup_insert_eq. }
  pose proof (status_updates_history id reqs w1 Hw1) as H.
  destruct (status_updates reqs w1) as [rs w2].
  destruct H as (Hw2 & new & Hh2 & Hl).
  split; [done|]. split.
  - rewrite Hh2, length_app, Hh1, Hl. done.
  - pose proof (status_updates_history id more w2 Hw2) as H.
    destruct (status_updates more w2) as [rs' w3].
    destruct H as (_ & new' & Hh3 & _). simpl. rewrite Hh3. by apply prefix_app_r.
Qed.

(** C1: a request of an admin to the status route, with a body the
    schema accepts, naming the stage [newStatus], for an existing
    quote.  When the index of [newStatus] is smaller than the index of
    the current status of the quote, and when the quote is DELIVERED,
    the update fails with InvalidTransition: the request is answered
    with the error status 500 and nothing changes, neither the status
    of the quote nor its history.  In every other case, also when
    stages in between are skipped, the update succeeds: the quote gets
    [newStatus], one history entry is appended and the updated quote is
    sent with status 200. *)
Theorem transition_refused_or_applied (schemas : Schemas) (req : Request) (w : World)
    (user validatedData : JsVal) (id : string) (quote : Quote) (newStatus : QuoteStatus) :
  truthy (req_user req) = true →
  Reference.getUser (opt_prop (req_user req) "id") w = Ok user →
  not_admin user = false →
  updateQuoteStatusSchema schemas (req_body req) = Ok validatedData →
  opt_prop validatedData "status" = JStr (status_name newStatus) →
  req_params_id req = JStr id →
  quotes w !! id = Some quote →
  let notes := opt_prop validatedData "notes" in
  let updated := transitioned quote newStatus notes (clock w) in
  (index newStatus < index (q_status quote) ∨ q_status quote = DELIVERED →
   Reference.updateQuoteStatus (JStr id) (JStr (status_name newStatus)) notes w
   = (Throw (Error "InvalidTransition"), w)
   ∧ put_api_admin_quotes_id_status Reference.storage schemas req w
     = (res_status_json 500 (JObj [("error", JStr "Internal server error")]), w))
  ∧ (index (q_status quote) ≤ index newStatus → q_status quote ≠ DELIVERED →
     put_api_admin_quotes_id_status Reference.storage schemas req w
     = (res_json (Reference.quote_row updated), set_quotes (insert id updated) w)
     ∧ q_status updated = newStatus
     ∧ q_statusHistory updated
       = q_statusHistory quote ++ [mkEntry newStatus notes (clock w)]).
Proof.
  intros Hauth Huser Hadmin Hparse Hstatus Hid Hquote notes updated.
  assert (Hroute :
    put_api_admin_quotes_id_status Reference.storage schemas req w
    = match Reference.updateQuoteStatus (JStr id) (JStr (status_name newStatus)) notes w with
      | (Ok row, w') => (res_json row, w')
      | (Throw e, w') => (catch_error e, w')
      end).
  { unfold put_api_admin_quotes_id_status, isAuthenticated, try_catch, bind, pure, query, ret.
    rewrite Hauth, (prop_truthy _ _ Hauth).
    change (getUser Reference.storage) with Reference.getUser.
    rewrite Huser. fold (not_admin user). rewrite Hadmin, Hparse, Hstatus, Hid.
    change (updateQuoteStatus Reference.storage) with Reference.updateQuoteStatus.
    fold notes. by destruct (Reference.updateQuoteStatus _ _ notes w) as [[row|e] w']. }
  rewrite Hroute. unfold Reference.updateQuoteStatus.
  rewrite Hquote, status_of_name_status_name. split.
  - intros Hinvalid.
    assert (Reference.invalid_transition (q_status quote) newStatus = true) as ->.
    { unfold Reference.invalid_transition. destruct Hinvalid as [Hlt | ->].
      - apply Z.ltb_lt in Hlt. by rewrite Hlt.
      - by rewrite orb_true_r. }
    done.
  - intros Hle Hnot.
    assert (Reference.invalid_transition (q_status quote) newStatus = false) as ->.
    { unfold Reference.invalid_transition. apply orb_false_iff. split.
      - apply Z.ltb_ge. exact Hle.
      - by destruct (q_status quote). }
    done.
Qed.

Lemma transition_refused_or_applied_witness :
  let reopen := Sample.quote_request Sample.admin Sample.reopen in
  let ship := Sample.quote_request Sample.admin Sample.ship in
  status_of "q1" SampleServices.workshop = Some DELIVERED
  ∧ status_of "q2" SampleServices.workshop = Some PROVIDED
  ∧ put_api_admin_quotes_id_status Reference.storage Reference.schemas (ship "q1")
      SampleServices.workshop
    = (res_status_json 500 (JObj [("error", JStr "Internal server error")]),
       SampleServices.workshop)
  ∧ put_api_admin_quotes_id_status Reference.storage Reference.schemas (reopen "q2")
      SampleServices.workshop
    = (res_status_json 500 (JObj [("error", JStr "Internal server error")]),
       SampleServices.workshop)
  ∧ put_api_admin_quotes_id_status Reference.storage Reference.schemas (ship "q2")
      SampleServices.workshop
    = (res_json (Reference.quote_row
                   (transitioned SampleServices.in_progress SHIPPED JUndefined 4)),
       set_quotes (insert "q2" (transitioned SampleServices.in_progress SHIPPED JUndefined 4))
         SampleServices.workshop).
Proof.
  intros reopen ship.
  split; [reflexivity|]. split; [reflexivity|]. split; [|split].
  - apply (transition_refused_or_applied Reference.schemas (ship "q1") SampleServices.workshop
             Sample.admin _ "q1" Sample.delivered SHIPPED
             eq_refl eq_refl eq_refl eq_refl eq_refl eq_refl eq_refl).
    right. reflexivity.
  - apply (transition_refused_or_applied Reference.schemas (reopen "q2") SampleServices.workshop
             Sample.admin _ "q2" SampleServices.in_progress REQUESTED
             eq_refl eq_refl eq_refl eq_refl eq_refl eq_refl eq_refl).
    left. reflexivity.
  - apply (transition_refused_or_applied Reference.schemas (ship "q2") SampleServices.workshop
             Sample.admin _ "q2" SampleServices.in_progress SHIPPED
             eq_refl eq_refl eq_refl eq_refl eq_refl eq_refl eq_refl).
    + discriminate.
    + discriminate.
Defined.

(** *** Files of a quote request *)

Lemma opt_prop_spread_with_eq (row : JsVal) (k : string) (v : JsVal) :
  opt_prop (spread_with row k v) k = v.
Proof.
  destruct row; simpl; rewrite ?String.eqb_refl; try reflexivity.
  rewrite assoc_app, (assoc_not_elem_of _ _ (not_elem_of_remove_key k fields)).
  rewrite bool_decide_eq_false_2 by apply not_elem_of_remove_key.
  simpl. by rewrite String.eqb_refl.
Qed.

Lemma file_parse_shape (v file : JsVal) :
  file_parse v = Some file →
  ∃ url name size,
    file = JObj (("uploadURL", JStr url) :: ("name", JStr name) :: size)
    ∧ (size = [] ∨ ∃ n, size = [("size", JNum n)]).
Proof.
  unfold file_parse. intros H. repeat case_match; simplify_eq; eauto 10.
Qed.

Lemma filesSchema_ok (body validated : JsVal) :
  filesSchema body = Ok validated →
  ∃ files, validated = JObj [("files", JArr files)]
           ∧ files ≠ []
           ∧ Forall (λ file, ∃ v, file_parse v = Some file) files.
Proof.
  unfold filesSchema. intros H. repeat case_match; simplify_eq.
  eexists. split; [reflexivity|]. split.
  - intros ->. simpl in *. discriminate.
  - match goal with Hm : mapM file_parse _ = Some _ |- _ => apply mapM_Some in Hm end.
    eapply Forall2_Forall_r; [eassumption|].
    apply Forall_true. intros. eauto.
Qed.

Lemma combinedSchema_ok (schemas : Schemas) (body validated : JsVal) :
  combinedSchema schemas body = Ok validated →
  opt_prop validated "files" = JArr (validated_files body)
  ∧ validated_files body ≠ []
  ∧ Forall (λ file, ∃ v, file_parse v = Some file) (validated_files body).
Proof.
  unfold combinedSchema, validated_files. intros H.
  destruct (insertQuoteSchema schemas body) as [quoteData|e1] eqn:Hq;
    destruct (filesSchema body) as [files|e2] eqn:Hf;
    try (repeat case_match; simplify_eq; fail).
  apply filesSchema_ok in Hf as (fs & -> & Hne & Hall).
  simplify_eq. rewrite opt_prop_spread_with_eq. simpl. done.
Qed.
Section QuoteFiles.
Variable hasMember : string → string → JsVal → bool.

Lemma is_uploaded_alter (f : StoredObject → StoredObject) (path : string) (w : World)
    (file : JsVal) :
  is_uploaded (set_objects (alter f path) w) file = is_uploaded w file.
Proof.
  unfold is_uploaded, Reference.getObjectEntityFile, object_path. simpl.
  destruct (Reference.in_private_namespace _); [|reflexivity].
  destruct (decide (path = Reference.normalizeObjectEntityPath (upload_url file))) as [->|Hne].
  - rewrite lookup_alter_eq. by destruct (objects w !! _).
  - by rewrite lookup_alter_ne.
Qed.

Lemma forallb_pointwise {A} (f g : A → bool) (l : list A) :
  (∀ x, f x = g x) → forallb f l = forallb g l.
Proof. intros H. induction l as [|x l IH]; simpl; [done|]. by rewrite H, IH. Qed.

(** One file of the request: when its object is there, the policy is
    attached and the file row is added to the quote; otherwise the
    task fails and changes nothing.  Objects are neither created nor
    removed, and policies attached before stay. *)
Lemma quote_file_task_run (owner : string) (quote file : JsVal) (id : string)
    (w : World) (q : Quote) :
  prop quote "id" = Ok (JStr id) →
  (∃ v, file_parse v = Some file) →
  quotes w !! id = Some q →
  let '(r, w') :=
    quote_file_task Reference.storage (Reference.objectStorageService hasMember)
      (JStr owner) quote file w in
  (∀ other, is_uploaded w' other = is_uploaded w other)
  ∧ (∀ path, has_policy (mkPolicy owner PRIVATE []) path w →
             has_policy (mkPolicy owner PRIVATE []) path w')
  ∧ if is_uploaded w file then
      ∃ row q',
        r = Ok row
        ∧ opt_prop row "filePath" = object_path file
        ∧ has_policy (mkPolicy owner PRIVATE [])
            (Reference.normalizeObjectEntityPath (upload_url file)) w'
        ∧ quotes w' !! id = Some q'
        ∧ q_files q' = q_files q ++ [row]
    else r = Throw ObjectNotFoundError ∧ w' = w.
Proof.
  intros Hid [v Hfile] Hq.
  apply file_parse_shape in Hfile as (url & name & size & -> & Hsize).
  unfold quote_file_task, bind, pure. simpl.
  unfold Reference.trySetObjectEntityAclPolicy, Reference.decode. simpl.
  rewrite Hid.
  unfold is_uploaded at 3, object_path, upload_url. simpl.
  set (path := Reference.normalizeObjectEntityPath url) in *.
  destruct (Reference.in_private_namespace path); [|by eauto].
  destruct (objects w !! path) as [object|] eqn:Hobject; [|by eauto].
  unfold Reference.createQuoteFile. simpl. rewrite Hq.
  split; [|split].
  - intros other. apply is_uploaded_alter.
  - unfold has_policy. simpl.
    intros p (o & Ho & Hm). destruct (decide (path = p)) as [<-|Hne].
    + rewrite lookup_alter_eq, Hobject. simpl. eauto.
    + rewrite lookup_alter_ne by done. eauto.
  - eexists _, _. split; [reflexivity|]. split; [reflexivity|].
    unfold has_policy. simpl. rewrite lookup_alter_eq, Hobject, lookup_insert_eq. simpl.
    eauto.
Qed.

(** All files of the request, as run by [Promise.all]. *)
Lemma quote_files_tasks (owner : string) (quote : JsVal) (id : string) (files : list JsVal) :
  prop quote "id" = Ok (JStr id) →
  Forall (λ file, ∃ v, file_parse v = Some file) files →
  ∀ (w : World) (q : Quote),
    quotes w !! id = Some q →
    let '(r, w') :=
      promise_all
        (quote_file_task Reference.storage (Reference.objectStorageService hasMember)
           (JStr owner) quote <$> files) w in
    (∀ other, is_uploaded w' other = is_uploaded w other)
    ∧ (∀ path, has_policy (mkPolicy owner PRIVATE []) path w →
               has_policy (mkPolicy owner PRIVATE []) path w')
    ∧ Forall (λ file, is_uploaded w file = true →
                      has_policy (mkPolicy owner PRIVATE [])
                        (Reference.normalizeObjectEntityPath (upload_url file)) w') files
    ∧ (∃ q', quotes w' !! id = Some q'
             ∧ (λ row, opt_prop row "filePath") <$> q_files q'
               = ((λ row, opt_prop row "filePath") <$> q_files q)
                 ++ (object_path <$> filter (λ file, is_uploaded w file = true) files))
    ∧ (if forallb (is_uploaded w) files then ∃ rows, r = Ok rows
       else r = Throw ObjectNotFoundError).
Proof.
  intros Hid Hfiles. induction Hfiles as [|file files Hfile Hfiles IH]; intros w q Hq.
  - simpl. split; [done|]. split; [done|]. split; [constructor|]. split; [|by eauto].
    exists q. by rewrite app_nil_r.
  - simpl.
    pose proof (quote_file_task_run owner quote file id w q Hid Hfile Hq) as Htask.
    destruct (quote_file_task _ _ _ quote file w) as [r w1].
    destruct Htask as (Hup1 & Hkeep1 & Hrun).
    assert (∃ q1, quotes w1 !! id = Some q1
                  ∧ (λ row, opt_prop row "filePath") <$> q_files q1
                    = ((λ row, opt_prop row "filePath") <$> q_files q)
                      ++ (object_path <$> filter (λ f, is_uploaded w f = true) [file])
                  ∧ (is_uploaded w file = true →
                     has_policy (mkPolicy owner PRIVATE [])
                       (Reference.normalizeObjectEntityPath (upload_url file)) w1)
                  ∧ if is_uploaded w file then ∃ row, r = Ok row
                    else r = Throw ObjectNotFoundError)
      as (q1 & Hq1 & Hfiles1 & Hpol1 & Hr).
    { rewrite filter_cons, filter_nil. cbv beta.
      destruct (is_uploaded w file) eqn:Hup.
      - destruct Hrun as (row & q' & -> & Hpath & Hpol & Hq' & Hfs).
        exists q'. split; [done|]. rewrite Hfs, fmap_app.
        case_decide; [|congruence]. simpl. rewrite Hpath. split; [done|]. split; eauto.
      - destruct Hrun as (-> & ->). exists q. split; [done|].
        case_decide; [congruence|]. simpl. rewrite app_nil_r.
        split; [done|]. split; [intros; congruence|eauto]. }
    specialize (IH w1 q1 Hq1).
    destruct (promise_all _ w1) as [rs w2].
    destruct IH as (Hup2 & Hkeep2 & Hall2 & (q2 & Hq2 & Hfiles2) & Hrs).
    split; [by intros other; rewrite Hup2, Hup1|].
    split; [by eauto|]. split; [|split].
    + constructor; [by eauto|].
      eapply Forall_impl; [exact Hall2|]. simpl. intros f Hf Hu. apply Hf. by rewrite Hup1.
    + exists q2. split; [done|]. rewrite Hfiles2, Hfiles1, <- app_assoc. f_equal.
      rewrite <- fmap_app. f_equal. rewrite !filter_cons, filter_nil.
      rewrite (list_filter_iff (λ f, is_uploaded w1 f = true) (λ f, is_uploaded w f = true))
        by (intros f; by rewrite Hup1).
      by case_decide.
    + rewrite (forallb_pointwise _ _ files Hup1) in Hrs.
      destruct (is_uploaded w file); simpl.
      * destruct Hr as [row ->]. destruct (forallb _ files).
        -- destruct Hrs as [rows ->]. eauto.
        -- by rewrite Hrs.
      * by rewrite Hr.
Qed.

(** C6: POST /api/quotes by a user with id [owner], with a body that
    passes the schema.  The request has at least one file.  Each file
    whose object is there, at the normalized path of its upload URL,
    carries afterwards the policy whose owner is [owner], whose
    visibility is private and which has no rules.  The created quote
    has one file row for each of these files, in the order of the
    request, with the normalized path as [filePath].  The answer is
    200 when the objects of all files are there. *)
Theorem uploaded_files_get_private_policy (schemas : Schemas) (req : Request) (w : World)
    (owner : string) (validated : JsVal) :
  truthy (req_user req) = true →
  opt_prop (req_user req) "id" = JStr owner →
  combinedSchema schemas (req_body req) = Ok validated →
  let files := validated_files (req_body req) in
  let '(r, w') :=
    post_api_quotes Reference.storage (Reference.objectStorageService hasMember)
      schemas req w in
  files ≠ []
  ∧ Forall (λ file, is_uploaded w file = true →
                    has_policy (mkPolicy owner PRIVATE [])
                      (Reference.normalizeObjectEntityPath (upload_url file)) w') files
  ∧ (∃ quote, quotes w' !! fresh (dom (quotes w)) = Some quote
              ∧ (λ row, opt_prop row "filePath") <$> q_files quote
                = object_path <$> filter (λ file, is_uploaded w file = true) files)
  ∧ status r = (if forallb (is_uploaded w) files then 200 else 500).
Proof.
  intros Hauth Howner Hparse files.
  unfold post_api_quotes, isAuthenticated, try_catch, bind, pure, query, ret.
  rewrite Hauth, (prop_truthy _ _ Hauth), Howner, Hparse.
  apply combinedSchema_ok in Hparse as (Hfiles & Hne & Hall).
  rewrite Hfiles. fold files in Hne, Hall |- *.
  change (createQuote Reference.storage) with Reference.createQuote.
  unfold Reference.createQuote at 1.
  set (id := fresh (dom (quotes w))).
  set (quote0 := mkQuote id _ _ _ _ _ _).
  set (w1 := set_quotes _ w).
  unfold js_map.
  assert (Hid : prop (Reference.quote_row quote0) "id" = Ok (JStr id)) by reflexivity.
  assert (Hq1 : quotes w1 !! id = Some quote0) by apply lookup_insert_eq.
  pose proof (quote_files_tasks owner _ id files Hid Hall w1 quote0 Hq1) as Htasks.
  change (map ?f files) with (f <$> files).
  destruct (promise_all _ w1) as [rs w2].
  destruct Htasks as (_ & _ & Hpols & (quote & Hquote & Hpaths) & Hrs).
  change (is_uploaded w1) with (is_uploaded w) in *.
  destruct (forallb (is_uploaded w) files).
  - destruct Hrs as [rows ->]. rewrite Hid. simpl. rewrite Hquote. simpl.
    split; [done|]. split; [done|]. split; [|done]. eauto.
  - rewrite Hrs. simpl. split; [done|]. split; [done|]. split; [|done]. eauto.
Qed.
End QuoteFiles.

(** ** The properties at the sample data *)

Lemma non_admin_forbidden_witness :
  not_admin Sample.customer = true
  ∧ admin_route Reference.storage Reference.schemas price_route
      (Sample.quote_request Sample.customer Sample.price "q1") Sample.world
    = (forbidden_admin_required, Sample.world)
  ∧ admin_route Reference.storage Reference.schemas status_route
      (Sample.quote_request Sample.customer Sample.ship "q1") Sample.world
    = (forbidden_admin_required, Sample.world).
Proof.
  split; [reflexivity|]. split.
  - apply (non_admin_forbidden Reference.storage Reference.schemas price_route
             (Sample.quote_request Sample.customer Sample.price "q1")
             Sample.world Sample.customer); reflexivity.
  - apply (non_admin_forbidden Reference.storage Reference.schemas status_route
             (Sample.quote_request Sample.customer Sample.ship "q1")
             Sample.world Sample.customer); reflexivity.
Defined.

Lemma malformed_body_400_witness :
  Reference.updateQuoteStatusSchema Sample.cancelled = Reference.invalid_input
  ∧ admin_route Reference.storage Reference.schemas status_route
      (Sample.quote_request Sample.admin Sample.cancelled "q1") Sample.world
    = (res_status_json 400
         (JObj [("error", JStr "Validation error"); ("details", JArr [JStr "Invalid input"])]),
       Sample.world).
Proof.
  split; [reflexivity|].
  apply (malformed_body_400 Reference.storage Reference.schemas status_route
           (Sample.quote_request Sample.admin Sample.cancelled "q1")
           Sample.world Sample.admin); reflexivity.
Defined.

Lemma quote_read_access_witness :
  (get_api_quotes_id Reference.storage
     (Sample.quote_request Sample.visitor JUndefined "q1") Sample.world).1
  = res_status_json 403 (JObj [("error", JStr "Forbidden")])
  ∧ (get_api_quotes_id Reference.storage
       (Sample.quote_request Sample.visitor JUndefined "q9") Sample.world).1
    = res_status_json 404 (JObj [("error", JStr "Quote not found")])
  ∧ (get_api_quotes_id Reference.storage
       (Sample.quote_request Sample.customer JUndefined "q1") Sample.world).1
    = res_json (Reference.quote_with_files Sample.delivered).
Proof.
  split; [|split].
  - rewrite (quote_read_access Reference.storage
               (Sample.quote_request Sample.visitor JUndefined "q1") Sample.world
               (Reference.quote_with_files Sample.delivered) Sample.visitor
               eq_refl eq_refl eq_refl).
    reflexivity.
  - rewrite (quote_read_access Reference.storage
               (Sample.quote_request Sample.visitor JUndefined "q9") Sample.world
               JUndefined Sample.visitor eq_refl eq_refl eq_refl).
    reflexivity.
  - rewrite (quote_read_access Reference.storage
               (Sample.quote_request Sample.customer JUndefined "q1") Sample.world
               (Reference.quote_with_files Sample.delivered) Sample.customer
               eq_refl eq_refl eq_refl).
    reflexivity.
Defined.

Lemma object_download_responses_witness :
  (get_objects Sample.objectStorageService
     (Sample.object_request Sample.customer "/objects/uploads/missing") Sample.world).1
  = res_sendStatus 404
  ∧ (get_objects Sample.objectStorageService
       (Sample.object_request Sample.visitor "/objects/uploads/drawing") Sample.world).1
    = res_sendStatus 401
  ∧ (get_objects Sample.objectStorageService
       (Sample.object_request Sample.customer "/objects/uploads/drawing") Sample.world).1
    = mkResponse 200 (stream Sample.drawing (JNum 3600) (JStr "drawing.step")).
Proof.
  split; [|split].
  - destruct (object_download_responses Sample.objectStorageService
                (Sample.object_request Sample.customer "/objects/uploads/missing")
                Sample.world eq_refl) as (H & _ & _).
    rewrite H; [reflexivity|]. vm_compute. reflexivity.
  - destruct (object_download_responses Sample.objectStorageService
                (Sample.object_request Sample.visitor "/objects/uploads/drawing")
                Sample.world eq_refl) as (_ & H & _).
    rewrite (H "/objects/uploads/drawing"); [reflexivity| |]; vm_compute; reflexivity.
  - destruct (object_download_responses Sample.objectStorageService
                (Sample.object_request Sample.customer "/objects/uploads/drawing")
                Sample.world eq_refl) as (_ & _ & H).
    rewrite (H "/objects/uploads/drawing"); [|vm_compute; reflexivity..].
    vm_compute. reflexivity.
Defined.

Lemma public_object_responses_witness :
  (get_public_objects Sample.objectStorageService
     (Sample.public_request "banner.png") Sample.world).1
  = res_status_json 404 (JObj [("error", JStr "File not found")])
  ∧ (get_public_objects Sample.objectStorageService
       (Sample.public_request "logo.png") Sample.world).1
    = mkResponse 200 (stream Sample.logo JUndefined JUndefined).
Proof.
  split.
  - destruct (public_object_responses Sample.objectStorageService
                (Sample.public_request "banner.png") Sample.world) as (H & _).
    rewrite H; [reflexivity|]. vm_compute. reflexivity.
  - destruct (public_object_responses Sample.objectStorageService
                (Sample.public_request "logo.png") Sample.world) as (_ & H & _).
    rewrite (H "/bucket/public/logo.png"); [|vm_compute; reflexivity].
    vm_compute. reflexivity.
Defined.


Lemma uploaded_files_get_private_policy_witness :
  let '(r, w') :=
    post_api_quotes Reference.storage Sample.objectStorageService Reference.schemas
      (Sample.quote_request Sample.customer Sample.new_quote "") Sample.world in
  opt_prop (userWithoutPassword Sample.customer) "id" = JStr "u1"
  ∧ has_policy (mkPolicy "u1" PRIVATE []) "/objects/uploads/bracket" w'
  ∧ status r = 200.
Proof.
  pose proof (uploaded_files_get_private_policy Sample.no_groups Reference.schemas
                (Sample.quote_request Sample.customer Sample.new_quote "") Sample.world
                "u1" _ eq_refl eq_refl eq_refl) as H.
  fold Sample.objectStorageService in H. cbv zeta in H.
  destruct (post_api_quotes _ _ _ _ _) as [r w'].
  destruct H as (_ & Hall & _ & Hstatus).
  split; [reflexivity|]. split.
  - apply Forall_inv in Hall. apply Hall. vm_compute. reflexivity.
  - rewrite Hstatus. vm_compute. reflexivity.
Defined.

(** ** Further properties of the routes, for any implementation of the services *)

Section ServiceFacts.
Context {W File : Type}.
Context (s : Services W File).

(** X1: a request without a user on it is answered 401 "Unauthorized"
    by every route registered with [isAuthenticated], and nothing
    behind the services changes. *)
Theorem unauthenticated_unauthorized (route : Route) (req : Request) (w : W) :
  protected route = true →
  truthy (req_user req) = false →
  serve s route req w = (res_status_json 401 (JObj [("message", JStr "Unauthorized")]), w).
Proof.
  intros Hprotected Hanonymous.
  destruct route; try discriminate; simpl;
    unfold get_api_auth_user, post_api_objects_upload, get_objects, post_api_quotes,
      get_api_quotes, get_api_quotes_id, get_api_admin_quotes,
      put_api_admin_quotes_id_status, put_api_admin_quotes_id_price, isAuthenticated;
    rewrite Hanonymous; reflexivity.
Qed.

(** X2: every route answers with one of its own status codes, unless
    the answer is the one [downloadObject] wrote, which only the two
    object routes can give. *)
Theorem route_statuses (route : Route) (req : Request) (w : W) :
  status (serve s route req w).1 ∈ statuses route
  ∨ (streams route = true
     ∧ ∃ file cacheTtlSec fileName,
         (serve s route req w).1
         = downloadObject (the_objectStorageService s) file cacheTtlSec fileName w).
Proof.
  destruct route; simpl;
    unfold post_api_register, post_api_login, post_api_logout, get_api_auth_user,
      post_api_objects_upload, get_objects, get_public_objects, post_api_quotes,
      get_api_quotes, get_api_quotes_id, get_api_admin_quotes,
      put_api_admin_quotes_id_status, put_api_admin_quotes_id_price,
      isAuthenticated, try_catch, bind, pure, query, ret, catch_message, catch_error,
      forbidden_admin_required, res_json, res_status_json, res_sendStatus;
    repeat case_match; simplify_eq/=; try (left; set_solver); right; eauto.
Qed.
End ServiceFacts.

Section AuthFacts.
Context {W : Type}.
Context (storage : IStorage W).
Context (schemas : Schemas).
Context (auth : AuthBackend W).

(** X3: a registration with an email that is already taken is answered
    400 "Email already registered"; no user is created and nothing
    else behind the services changes. *)
Theorem register_duplicate_email (req : Request) (w : W) (validatedData existingUser : JsVal) :
  insertUserSchema schemas (req_body req) = Ok validatedData →
  getUserByEmail storage (opt_prop validatedData "email") w = Ok existingUser →
  truthy existingUser = true →
  post_api_register storage schemas auth req w
  = (res_status_json 400 (JObj [("message", JStr "Email already registered")]), w).
Proof.
  intros Hparse Hexisting Htaken.
  unfold post_api_register, try_catch, bind, pure, query, ret.
  rewrite Hparse, Hexisting, Htaken. reflexivity.
Qed.


(** X5: the verify function of the local strategy answers an unknown
    email, a user without a password and a wrong password with the
    same failure, and so does the login route: 401 "Invalid email or
    password", with nothing changed behind the services. *)
Theorem login_failures_uniform (req : Request) (w : W) (user : JsVal) :
  let email := opt_prop (req_body req) "email" in
  let password := opt_prop (req_body req) "password" in
  getUserByEmail storage email w = Ok user →
  truthy user = false
  ∨ truthy (opt_prop user "password") = false
  ∨ verifyPassword auth password (opt_prop user "password") = Ok false →
  verify storage auth email password w = done_false invalid_email_or_password
  ∧ (truthy email = true → truthy password = true →
     (∀ errors, loginUserSchema schemas (req_body req) ≠ Throw (ZodError errors)) →
     post_api_login storage schemas auth req w
     = (res_status_json 401 (JObj [("message", JStr "Invalid email or password")]), w)).
Proof.
  intros email password Huser Hfail.
  assert (Hverify : verify storage auth email password w = done_false invalid_email_or_password).
  { unfold verify. rewrite Huser.
    destruct (truthy user); [|reflexivity]. simpl.
    destruct (truthy (opt_prop user "password")); [|reflexivity]. simpl.
    destruct Hfail as [?|[?|Hwrong]]; try discriminate. by rewrite Hwrong. }
  split; [exact Hverify|].
  intros Hemail Hpassword Hschema.
  unfold post_api_login, local_strategy.
  assert (Hbody : ∀ other, js_or email other = email ∧ js_or password other = password).
  { intros other. unfold js_or. by rewrite Hemail, Hpassword. }
  fold email password.
  rewrite (proj1 (Hbody _)), (proj2 (Hbody _)), Hemail, Hpassword, Hverify. simpl.
  destruct (loginUserSchema schemas (req_body req)) as [?|[errors| | |]] eqn:Hparse;
    try reflexivity.
  by destruct (Hschema errors).
Qed.

(** X6: the login route answers 200, or changes anything behind the
    services, only after [verifyPassword] has returned true for the
    password of the request and the stored password of the user found
    by the email of the request; the answer is then that user without
    the password, or 500 "Login failed" when the session could not be
    set up. *)
Theorem login_requires_password_check (req : Request) (w : W) :
  let '(r, w') := post_api_login storage schemas auth req w in
  (status r ≠ 200 ∧ w' = w)
  ∨ ∃ email password user,
      email = js_or (opt_prop (req_body req) "email") (opt_prop (req_query req) "email")
      ∧ password = js_or (opt_prop (req_body req) "password") (opt_prop (req_query req) "password")
      ∧ getUserByEmail storage email w = Ok user
      ∧ verifyPassword auth password (opt_prop user "password") = Ok true
      ∧ (r = res_json (userWithoutPassword user)
         ∨ r = res_status_json 500 (JObj [("message", JStr "Login failed")])).
Proof.
  unfold post_api_login, local_strategy, verify, req_login, bind, pure,
    res_json, res_status_json.
  repeat (case_match; simplify_eq/=); try (left; split; [discriminate|reflexivity]);
    right; eexists _, _, _; (split; [reflexivity|]); (split; [reflexivity|]);
    (split; [eassumption|]); (split; [|by eauto]);
    match goal with
    | H : negb ?b = false |- _ = Ok true => destruct b; [assumption|discriminate]
    end.
Qed.

(** X7: what [passport.serializeUser] puts in the session for the user
    sent at login is the id of the stored user, and as long as the
    store returns the same row for that id, [passport.deserializeUser]
    puts on the request the very object that was sent at login; once
    the row is gone, no user is put on the request. *)
Theorem session_round_trip (user : JsVal) (w : W) :
  truthy user = true →
  serializeUser (userWithoutPassword user) = Ok (opt_prop user "id")
  ∧ (getUserById storage (opt_prop user "id") w = Ok user →
     deserializeUser storage (opt_prop user "id") w = done_user (userWithoutPassword user))
  ∧ (∀ row, getUserById storage (opt_prop user "id") w = Ok row → truthy row = false →
     deserializeUser storage (opt_prop user "id") w = done_false JUndefined).
Proof.
  intros Huser. split; [reflexivity|]. split.
  - intros Hrow. unfold deserializeUser. by rewrite Hrow, Huser.
  - intros row Hrow Hgone. unfold deserializeUser. by rewrite Hrow, Hgone.
Qed.
End AuthFacts.

Section AccessFacts.
Context {W File : Type}.
Context (storage : IStorage W).
Context (lists : IStorageLists W).
Context (objectStorageService : ObjectStorageService W File).
Context (schemas : Schemas).

(** X8: GET /objects/:objectPath lets [downloadObject] write the answer
    only for a request with a user on it, for a file that
    [getObjectEntityFile] returned and for which the access check
    returned true for the id of that user; in every other case,
    whatever was thrown, the answer is a bare status 401, 404 or 500,
    or the 401 of [isAuthenticated]. *)
Theorem object_served_only_after_access_check (req : Request) (w : W) :
  let '(r, w') := get_objects objectStorageService req w in
  w' = w
  ∧ (r ∈ [ res_sendStatus 401; res_sendStatus 404; res_sendStatus 500;
           res_status_json 401 (JObj [("message", JStr "Unauthorized")]) ]
     ∨ (truthy (req_user req) = true
        ∧ ∃ objectFile,
            getObjectEntityFile objectStorageService (req_path req) w = Ok objectFile
            ∧ canAccessObjectEntity objectStorageService objectFile
                (opt_prop (req_user req) "id") JUndefined w = Ok true
            ∧ r = downloadObject objectStorageService objectFile (JNum 3600)
                    (opt_prop (req_query req) "filename") w)).
Proof.
  unfold get_objects, isAuthenticated, try_catch, bind, pure, query, ret.
  repeat (case_match; simplify_eq/=); split; try reflexivity;
    try (left; set_solver).
  right. split; [done|]. eexists. repeat split; try eassumption.
  match goal with H : negb ?b = false |- _ = Ok true => by destruct b end.
Qed.

(** X9: GET /api/quotes/:id sends a quote only when the store returned
    it for the id of the request and the user of the request is its
    owner or the store's row of that user has [isAdmin] 1; the route
    changes nothing behind the services. *)
Theorem quote_sent_only_to_owner_or_admin (req : Request) (w : W) :
  let '(r, w') := get_api_quotes_id storage req w in
  w' = w
  ∧ (status r ≠ 200
     ∨ ∃ quote user,
         truthy (req_user req) = true
         ∧ getQuote storage (req_params_id req) w = Ok quote
         ∧ truthy quote = true
         ∧ getUser storage (opt_prop (req_user req) "id") w = Ok user
         ∧ (strict_eqb (opt_prop quote "userId") (opt_prop (req_user req) "id") = true
            ∨ opt_prop user "isAdmin" = JNum 1)
         ∧ r = res_json quote).
Proof.
  unfold get_api_quotes_id, isAuthenticated, try_catch, bind, pure, query, ret,
    res_json, res_status_json.
  repeat (case_match; simplify_eq/=); split; try reflexivity;
    try (left; discriminate).
  right.
  match goal with
  | Hid : prop (req_user req) "id" = Ok ?a |- _ =>
      assert (a = opt_prop (req_user req) "id") as ->
        by (rewrite prop_truthy in Hid by assumption; congruence)
  end.
  eexists _, _. repeat split; try eassumption.
  - match goal with H : negb (truthy ?q) = false |- truthy ?q = true => by destruct (truthy q) end.
  - match goal with
    | H : negb (strict_eqb ?a ?b) && negb (strict_eqb ?c ?d) = false |- _ =>
        destruct (strict_eqb a b) eqn:Hown; [by left|right];
        destruct c; simpl in H; try discriminate;
        apply negb_false_iff, Z.eqb_eq in H; by subst
    end.
Qed.

(** X10: the two admin routes change something behind the services, or
    answer 200, only for a request whose user has [isAdmin] 1 in the
    store and whose body the schema of the route accepted. *)
Theorem admin_update_only_by_admin (route : AdminRoute) (req : Request) (w : W) :
  let '(r, w') := admin_route storage schemas route req w in
  (status r ≠ 200 ∧ w' = w)
  ∨ ∃ user validatedData,
      truthy (req_user req) = true
      ∧ getUser storage (opt_prop (req_user req) "id") w = Ok user
      ∧ opt_prop user "isAdmin" = JNum 1
      ∧ admin_route_schema schemas route (req_body req) = Ok validatedData.
Proof.
  destruct route; simpl;
    unfold put_api_admin_quotes_id_status, put_api_admin_quotes_id_price,
      isAuthenticated, try_catch, bind, pure, query, ret, catch_error,
      forbidden_admin_required, res_json, res_status_json;
    repeat (case_match; simplify_eq/=); try (left; split; [discriminate|reflexivity]);
    right;
    match goal with
    | Hid : prop (req_user req) "id" = Ok ?a |- _ =>
        assert (a = opt_prop (req_user req) "id") as ->
          by (rewrite prop_truthy in Hid by assumption; congruence)
    end;
    eexists _, _; repeat split; try eassumption;
    match goal with
    | H : negb (strict_eqb ?c _) = false |- ?c = JNum 1 =>
        destruct c; simpl in H; try discriminate;
        apply negb_false_iff, Z.eqb_eq in H; by subst
    end.
Qed.

(** X11: GET /api/admin/quotes: for a user whose [isAdmin] in the store
    is anything but the number 1 (the string "1", true, no row at all)
    the answer is 403 and the list of quotes is not read; for an admin
    the answer is the list the store returns. *)
Theorem admin_list_for_admin_only (req : Request) (w : W) (user : JsVal) :
  truthy (req_user req) = true →
  getUser storage (opt_prop (req_user req) "id") w = Ok user →
  (opt_prop user "isAdmin" ≠ JNum 1 →
   ∀ other : IStorageLists W,
     get_api_admin_quotes storage other req w = (forbidden_admin_required, w))
  ∧ (opt_prop user "isAdmin" = JNum 1 →
     ∀ quotes, getAllQuotes lists w = Ok quotes →
     get_api_admin_quotes storage lists req w = (res_json quotes, w)).
Proof.
  intros Hauth Huser.
  unfold get_api_admin_quotes, isAuthenticated, try_catch, bind, pure, query, ret.
  rewrite Hauth, (prop_truthy _ _ Hauth), Huser. split.
  - intros Hnot other.
    destruct (strict_eqb (opt_prop user "isAdmin") (JNum 1)) eqn:Heq; [|reflexivity].
    destruct (opt_prop user "isAdmin"); simpl in Heq; try discriminate.
    apply Z.eqb_eq in Heq. by subst.
  - intros -> quotes Hquotes. simpl. by rewrite Hquotes.
Qed.

(** X12: GET /api/quotes answers with the list the store returns for
    the id of the user on the request; two requests of the same user
    get the same answer, whatever their bodies, parameters and
    queries. *)
Theorem own_quotes_by_session_user (req other : Request) (w : W) :
  req_user other = req_user req →
  get_api_quotes lists other w = get_api_quotes lists req w
  ∧ (truthy (req_user req) = true →
     ∀ quotes, getQuotesByUser lists (opt_prop (req_user req) "id") w = Ok quotes →
     get_api_quotes lists req w = (res_json quotes, w)).
Proof.
  intros Hsame. unfold get_api_quotes, isAuthenticated, try_catch, bind, pure, query, ret.
  rewrite Hsame. split; [reflexivity|].
  intros Hauth quotes Hquotes. by rewrite Hauth, (prop_truthy _ _ Hauth), Hquotes.
Qed.

(** X13: a quote request whose [files] is missing or empty is answered
    400, whatever else the body has, as long as [insertQuoteSchema]
    throws nothing but validation errors; no quote is created and
    nothing else behind the services changes. *)
Theorem quote_without_files_rejected (req : Request) (w : W) :
  truthy (req_user req) = true →
  opt_prop (req_body req) "files" = JArr [] ∨ opt_prop (req_body req) "files" = JUndefined →
  (∀ e, insertQuoteSchema schemas (req_body req) = Throw e → ∃ issues, e = ZodError (JArr issues)) →
  ∃ details,
    post_api_quotes storage objectStorageService schemas req w
    = (res_status_json 400 (JObj [("error", JStr "Validation error"); ("details", details)]), w).
Proof.
  intros Hauth Hfiles Hzod.
  unfold post_api_quotes, isAuthenticated, try_catch, bind, pure, query, ret.
  rewrite Hauth, (prop_truthy _ _ Hauth).
  unfold combinedSchema, filesSchema.
  destruct (insertQuoteSchema schemas (req_body req)) as [quoteData|e] eqn:Hparse.
  - destruct Hfiles as [-> | ->]; simpl; eauto.
  - destruct (Hzod e eq_refl) as [issues ->].
    destruct Hfiles as [-> | ->]; simpl; eauto.
Qed.

(** X17: the quote of a quote request is created for the user on the
    request: [createQuote] gets the id of that user as [userId],
    whatever [userId] the validated body has.  A store that differs
    from [storage] only in what [createQuote] does with any other
    [userId] serves the request in the same way. *)
Theorem quote_owner_is_session_user (other : IStorage W) (req : Request) (w : W) :
  createQuoteFile other = createQuoteFile storage →
  getQuote other = getQuote storage →
  (∀ data w',
     opt_prop data "userId" = opt_prop (req_user req) "id" →
     createQuote other data w' = createQuote storage data w') →
  post_api_quotes other objectStorageService schemas req w
  = post_api_quotes storage objectStorageService schemas req w.
Proof.
  intros Hfile Hget Hcreate.
  unfold post_api_quotes, isAuthenticated, quote_file_task.
  destruct (truthy (req_user req)) eqn:Hauth; [|reflexivity].
  unfold try_catch, bind, pure, query, ret.
  rewrite (prop_truthy _ _ Hauth), Hfile, Hget.
  destruct (combinedSchema schemas (req_body req)) as [validatedData|e]; [|reflexivity].
  rewrite Hcreate by apply opt_prop_spread_with_eq. reflexivity.
Qed.
End AccessFacts.

(** ** Properties of the schema and of the file type of POST /api/quotes *)

Lemma append_empty_r (s : string) : s +:+ "" = s.
Proof. induction s as [|c s IH]; [done|]. change (String c (s +:+ "") = String c s). by rewrite IH. Qed.

Lemma append_snoc (s rest : string) (c : ascii) :
  (s +:+ String c "") +:+ rest = s +:+ String c rest.
Proof.
  induction s as [|d s IH]; [done|].
  change (String d ((s +:+ String c "") +:+ rest) = String d (s +:+ String c rest)).
  by rewrite IH.
Qed.

Lemma split_pop_no_dot (s segment : string) :
  has_dot s = false → split_pop s segment = segment +:+ s.
Proof.
  revert segment. induction s as [|c rest IH]; intros segment Hdot; simpl in *.
  - by rewrite append_empty_r.
  - apply orb_false_iff in Hdot as [Hc Hrest]. rewrite Hc, IH by done.
    apply append_snoc.
Qed.

Lemma split_pop_after_dot (stem rest segment : string) :
  split_pop (stem +:+ "." +:+ rest) segment = split_pop rest "".
Proof.
  revert segment. induction stem as [|c stem IH]; intros segment; simpl.
  - reflexivity.
  - destruct (Ascii.eqb c "."); apply IH.
Qed.

Lemma split_pop_has_no_dot (s segment : string) :
  has_dot segment = false → has_dot (split_pop s segment) = false.
Proof.
  revert segment. induction s as [|c rest IH]; intros segment Hseg; simpl; [done|].
  destruct (Ascii.eqb c ".") eqn:Hc; apply IH; [done|].
  clear IH. induction segment as [|d segment IHs]; simpl in *.
  - by rewrite Hc.
  - apply orb_false_iff in Hseg as [-> Hseg]. simpl. by apply IHs.
Qed.

(** X14: the file type taken from a file name is what follows its last
    dot: for a name [stem.ext] with no dot in [ext] it is [ext]; a name
    without any dot is its own file type; and the file type never has
    a dot. *)
Theorem file_type_is_last_segment (name stem ext : string) :
  has_dot ext = false →
  js_split_pop (JStr (stem +:+ "." +:+ ext)) = Ok (JStr ext)
  ∧ js_split_pop (JStr ext) = Ok (JStr ext)
  ∧ ∃ type, js_split_pop (JStr name) = Ok (JStr type) ∧ has_dot type = false.
Proof.
  intros Hext. unfold js_split_pop. split; [|split].
  - by rewrite split_pop_after_dot, split_pop_no_dot.
  - by rewrite split_pop_no_dot.
  - eexists. split; [reflexivity|]. by apply split_pop_has_no_dot.
Qed.

Lemma file_type_is_last_segment_witness :
  has_dot "step" = false
  ∧ js_split_pop (JStr "bracket.v2.step") = Ok (JStr "step")
  ∧ js_split_pop (JStr "README") = Ok (JStr "README").
Proof.
  split; [reflexivity|].
  destruct (file_type_is_last_segment "README" "bracket.v2" "step" eq_refl) as (H1 & _ & _).
  destruct (file_type_is_last_segment "README" "" "README" eq_refl) as (_ & H2 & _).
  split; [exact H1|exact H2].
Defined.

Lemma file_parse_idempotent (v file : JsVal) :
  file_parse v = Some file →
  file_parse file = Some file
  ∧ (property_names file = ["uploadURL"; "name"]
     ∨ property_names file = ["uploadURL"; "name"; "size"]).
Proof.
  intros H. apply file_parse_shape in H as (url & name & size & -> & [->|[n ->]]);
    split; try reflexivity; [by left|by right].
Qed.

(** X15: what [filesSchema] returns passes [filesSchema] again,
    unchanged; its files have no properties but [uploadURL], [name]
    and, when the request gave a number, [size]. *)
Theorem filesSchema_idempotent (body validated : JsVal) :
  filesSchema body = Ok validated →
  filesSchema validated = Ok validated
  ∧ Forall (λ file, property_names file = ["uploadURL"; "name"]
                    ∨ property_names file = ["uploadURL"; "name"; "size"])
      (validated_files body).
Proof.
  intros Hparse. unfold validated_files. rewrite Hparse.
  apply filesSchema_ok in Hparse as (files & -> & Hne & Hall). simpl.
  assert (Hfiles : mapM file_parse files = Some files).
  { apply mapM_Some. clear Hne.
    induction Hall as [|file files [v Hfile] _ IH]; constructor; [|done].
    by apply file_parse_idempotent in Hfile as [? _]. }
  split.
  - unfold filesSchema. simpl. rewrite Hfiles.
    destruct files; [done|reflexivity].
  - eapply Forall_impl; [exact Hall|]. intros file [v Hfile].
    by apply file_parse_idempotent in Hfile as [_ ?].
Qed.

Lemma filesSchema_idempotent_witness :
  ∃ validated,
    filesSchema Sample.new_quote = Ok validated
    ∧ filesSchema validated = Ok validated
    ∧ opt_prop validated "service" = JUndefined.
Proof.
  eexists. split; [reflexivity|]. split; [|reflexivity].
  apply (proj1 (filesSchema_idempotent Sample.new_quote _ eq_refl)).
Defined.

(** ** From the quote request to the download, on the reference implementation *)

Section UploadThenDownload.
Variable hasMember : string → string → JsVal → bool.

Lemma quote_request_attaches_policies (schemas : Schemas) (req : Request) (w : World)
    (owner : string) (validated : JsVal) :
  truthy (req_user req) = true →
  opt_prop (req_user req) "id" = JStr owner →
  combinedSchema schemas (req_body req) = Ok validated →
  Forall (λ file, is_uploaded w file = true →
                  has_policy (mkPolicy owner PRIVATE [])
                    (Reference.normalizeObjectEntityPath (upload_url file))
                    (post_api_quotes Reference.storage
                       (Reference.objectStorageService hasMember) schemas req w).2)
    (validated_files (req_body req)).
Proof.
  intros Hauth Howner Hparse.
  unfold post_api_quotes, isAuthenticated, try_catch, bind, pure, query, ret.
  rewrite Hauth, (prop_truthy _ _ Hauth), Howner, Hparse.
  apply combinedSchema_ok in Hparse as (Hfiles & Hne & Hall).
  rewrite Hfiles.
  change (createQuote Reference.storage) with Reference.createQuote.
  unfold Reference.createQuote at 1.
  set (id := fresh (dom (quotes w))).
  set (quote0 := mkQuote id _ _ _ _ _ _).
  set (w1 := set_quotes _ w).
  unfold js_map.
  assert (Hid : prop (Reference.quote_row quote0) "id" = Ok (JStr id)) by reflexivity.
  assert (Hq1 : quotes w1 !! id = Some quote0) by apply lookup_insert_eq.
  pose proof (quote_files_tasks hasMember owner _ id _ Hid Hall w1 quote0 Hq1) as Htasks.
  change (map ?f (validated_files (req_body req)))
    with (f <$> validated_files (req_body req)).
  destruct (promise_all _ w1) as [rs w2].
  destruct Htasks as (_ & _ & Hpols & _ & _).
  change (is_uploaded w1) with (is_uploaded w) in *.
  destruct rs as [rows|e]; simpl; repeat case_match; simplify_eq/=; exact Hpols.
Qed.

(** X16: after a quote request of the user with id [owner], a file of
    the request whose object was there is served by
    GET /objects/:objectPath, at the [filePath] stored for it, to that
    user, with status 200 and the bytes of the object; any user with
    another id is answered 401, whatever groups that user is in. *)
Theorem uploaded_file_served_to_owner_only (schemas : Schemas) (req download : Request)
    (w : World) (owner : string) (validated file : JsVal) :
  truthy (req_user req) = true →
  opt_prop (req_user req) "id" = JStr owner →
  combinedSchema schemas (req_body req) = Ok validated →
  file ∈ validated_files (req_body req) →
  is_uploaded w file = true →
  req_path download = object_path file →
  truthy (req_user download) = true →
  let service := Reference.objectStorageService hasMember in
  let w' := (post_api_quotes Reference.storage service schemas req w).2 in
  (opt_prop (req_user download) "id" = JStr owner →
   ∃ object,
     objects w' !! Reference.normalizeObjectEntityPath (upload_url file) = Some object
     ∧ get_objects service download w'
       = (mkResponse 200 (stream (content object) (JNum 3600)
                            (opt_prop (req_query download) "filename")), w'))
  ∧ (∀ other, opt_prop (req_user download) "id" = JStr other → other ≠ owner →
     get_objects service download w' = (res_sendStatus 401, w')).
Proof.
  intros Hauth Howner Hparse Hfile Huploaded Hpath Hdl service w'.
  pose proof (quote_request_attaches_policies schemas req w owner validated
                Hauth Howner Hparse) as Hpols.
  rewrite Forall_forall in Hpols.
  destruct (Hpols file Hfile Huploaded) as (object & Hobject & Hmeta).
  fold service in Hobject. fold w' in Hobject.
  assert (Hns : Reference.in_private_namespace
                  (Reference.normalizeObjectEntityPath (upload_url file)) = true).
  { unfold is_uploaded, Reference.getObjectEntityFile, object_path in Huploaded.
    by destruct (Reference.in_private_namespace _). }
  unfold get_objects, isAuthenticated, try_catch, bind, pure, query, ret.
  rewrite Hdl, Hpath. unfold object_path. simpl.
  unfold Reference.getObjectEntityFile, Reference.canAccessObjectEntity.
  rewrite Hns, Hobject. simpl. rewrite Hobject, Hmeta. simpl.
  unfold Reference.checkAccess, Reference.downloadObject. simpl.
  split.
  - intros ->. simpl. rewrite String.eqb_refl. simpl. rewrite Hobject. eauto.
  - intros other -> Hother. simpl.
    destruct (String.eqb_spec other owner) as [?|_]; [done|]. reflexivity.
Qed.
End UploadThenDownload.

Lemma uploaded_file_served_to_owner_only_witness :
  let req := Sample.quote_request Sample.customer Sample.new_quote "" in
  let w' := (post_api_quotes Reference.storage Sample.objectStorageService
               Reference.schemas req Sample.world).2 in
  (get_objects Sample.objectStorageService
     (Sample.object_request Sample.customer "/objects/uploads/bracket") w').1
  = mkResponse 200 (stream Sample.drawing (JNum 3600) (JStr "drawing.step"))
  ∧ (get_objects Sample.objectStorageService
       (Sample.object_request Sample.visitor "/objects/uploads/bracket") w').1
    = res_sendStatus 401.
Proof.
  intros req w'.
  assert (Hfile : ∃ file, validated_files (req_body req) = [file]) by (eexists; reflexivity).
  destruct Hfile as [file Hfile].
  assert (Hin : file ∈ validated_files (req_body req)) by (rewrite Hfile; apply list_elem_of_here).
  assert (Hup : is_uploaded Sample.world file = true).
  { injection Hfile as <-. vm_compute. reflexivity. }
  assert (Hpath : ∀ user, req_path (Sample.object_request user "/objects/uploads/bracket")
                          = object_path file).
  { intros user. injection Hfile as <-. reflexivity. }
  split.
  - destruct (uploaded_file_served_to_owner_only Sample.no_groups Reference.schemas req
                (Sample.object_request Sample.customer "/objects/uploads/bracket")
                Sample.world "u1" _ file eq_refl eq_refl eq_refl Hin Hup (Hpath _) eq_refl)
      as [Hown _].
    destruct (Hown eq_refl) as (object & Hobject & Hget).
    fold Sample.objectStorageService in Hget. fold req in Hget. fold w' in Hget, Hobject.
    rewrite Hget. simpl.
    injection Hfile as <-. vm_compute in Hobject. injection Hobject as <-. reflexivity.
  - destruct (uploaded_file_served_to_owner_only Sample.no_groups Reference.schemas req
                (Sample.object_request Sample.visitor "/objects/uploads/bracket")
                Sample.world "u1" _ file eq_refl eq_refl eq_refl Hin Hup (Hpath _) eq_refl)
      as [_ Hother].
    fold Sample.objectStorageService in Hother. fold req in Hother. fold w' in Hother.
    rewrite (Hother "u2" eq_refl); [reflexivity|discriminate].
Defined.

(** ** The further properties at the sample data *)

Lemma unauthenticated_unauthorized_witness :
  protected admin_status_route = true
  ∧ serve SampleServices.services admin_status_route
      (Sample.anonymous_request Sample.ship) Sample.world
    = (res_status_json 401 (JObj [("message", JStr "Unauthorized")]), Sample.world).
Proof.
  split; [reflexivity|].
  apply (unauthenticated_unauthorized SampleServices.services admin_status_route
           (Sample.anonymous_request Sample.ship) Sample.world); reflexivity.
Defined.

Lemma register_duplicate_email_witness :
  Reference.getUserByEmail (JStr "ada@customer.example") Sample.world = Ok Sample.customer
  ∧ post_api_register Reference.storage Reference.schemas Reference.auth
      (Sample.anonymous_request SampleServices.taken) Sample.world
    = (res_status_json 400 (JObj [("message", JStr "Email already registered")]), Sample.world).
Proof.
  split; [reflexivity|].
  eapply (register_duplicate_email Reference.storage Reference.schemas Reference.auth
            (Sample.anonymous_request SampleServices.taken) Sample.world);
    reflexivity.
Defined.


Lemma login_failures_uniform_witness :
  post_api_login Reference.storage Reference.schemas Reference.auth
    (Sample.anonymous_request SampleServices.wrong_password) Sample.world
  = (res_status_json 401 (JObj [("message", JStr "Invalid email or password")]), Sample.world)
  ∧ post_api_login Reference.storage Reference.schemas Reference.auth
      (Sample.anonymous_request SampleServices.unknown_email) Sample.world
    = (res_status_json 401 (JObj [("message", JStr "Invalid email or password")]), Sample.world).
Proof.
  split.
  - apply (login_failures_uniform Reference.storage Reference.schemas Reference.auth
             (Sample.anonymous_request SampleServices.wrong_password) Sample.world
             Sample.customer eq_refl (or_intror (or_intror eq_refl))); try reflexivity.
    intros errors. discriminate.
  - apply (login_failures_uniform Reference.storage Reference.schemas Reference.auth
             (Sample.anonymous_request SampleServices.unknown_email) Sample.world
             JUndefined eq_refl (or_introl eq_refl)); try reflexivity.
    intros errors. discriminate.
Defined.

Lemma session_round_trip_witness :
  serializeUser (userWithoutPassword Sample.customer) = Ok (JStr "u1")
  ∧ deserializeUser Reference.storage (JStr "u1") Sample.world
    = done_user (userWithoutPassword Sample.customer).
Proof.
  destruct (session_round_trip Reference.storage Sample.customer Sample.world eq_refl)
    as (Hserialize & Hdeserialize & _).
  split; [exact Hserialize|]. apply Hdeserialize. reflexivity.
Defined.

Lemma admin_list_for_admin_only_witness :
  get_api_admin_quotes Reference.storage SampleServices.lists
    (Sample.quote_request SampleServices.clerk JUndefined "") SampleServices.office
  = (forbidden_admin_required, SampleServices.office)
  ∧ get_api_admin_quotes Reference.storage SampleServices.lists
      (Sample.quote_request Sample.admin JUndefined "") SampleServices.office
    = (res_json (JArr [Reference.quote_with_files Sample.delivered]), SampleServices.office).
Proof.
  split.
  - apply (admin_list_for_admin_only Reference.storage SampleServices.lists
             (Sample.quote_request SampleServices.clerk JUndefined "") SampleServices.office
             SampleServices.clerk eq_refl eq_refl).
    discriminate.
  - apply (admin_list_for_admin_only Reference.storage SampleServices.lists
             (Sample.quote_request Sample.admin JUndefined "") SampleServices.office
             Sample.admin eq_refl eq_refl); [reflexivity|].
    vm_compute. reflexivity.
Defined.

Lemma own_quotes_by_session_user_witness :
  get_api_quotes SampleServices.lists
    (Sample.quote_request Sample.customer (JObj [("userId", JStr "u2")]) "q9") Sample.world
  = (res_json (JArr [Reference.quote_with_files Sample.delivered]), Sample.world).
Proof.
  destruct (own_quotes_by_session_user SampleServices.lists
              (Sample.quote_request Sample.customer JUndefined "")
              (Sample.quote_request Sample.customer (JObj [("userId", JStr "u2")]) "q9")
              Sample.world eq_refl) as [Hsame Hlist].
  rewrite Hsame. apply Hlist; [reflexivity|]. vm_compute. reflexivity.
Defined.

Lemma quote_without_files_rejected_witness :
  ∃ details,
    post_api_quotes Reference.storage Sample.objectStorageService Reference.schemas
      (Sample.quote_request Sample.customer SampleServices.no_files "") Sample.world
    = (res_status_json 400 (JObj [("error", JStr "Validation error"); ("details", details)]),
       Sample.world).
Proof.
  apply (quote_without_files_rejected Reference.storage Sample.objectStorageService
           Reference.schemas
           (Sample.quote_request Sample.customer SampleServices.no_files "") Sample.world
           eq_refl (or_introl eq_refl)).
  intros e He. vm_compute in He. discriminate.
Defined.

Lemma quote_owner_is_session_user_witness :
  post_api_quotes SampleServices.careful_quotes Sample.objectStorageService Reference.schemas
    (Sample.quote_request Sample.customer SampleServices.for_someone_else "") Sample.world
  = post_api_quotes Reference.storage Sample.objectStorageService Reference.schemas
      (Sample.quote_request Sample.customer SampleServices.for_someone_else "") Sample.world
  ∧ status (post_api_quotes Reference.storage Sample.objectStorageService Reference.schemas
              (Sample.quote_request Sample.customer SampleServices.for_someone_else "")
              Sample.world).1 = 200.
Proof.
  split; [|vm_compute; reflexivity].
  apply (quote_owner_is_session_user Reference.storage Sample.objectStorageService
           Reference.schemas SampleServices.careful_quotes); [reflexivity|reflexivity|].
  intros data w' Hdata. simpl. rewrite Hdata. reflexivity.
Defined.
